(** * The metric resolver of [convert_sniper_sqlite.py]

    A shallow embedding of the script that re-exports Sniper's
    [sim.stats.sqlite3] database as a nested document, and the properties
    of its resolution step ([build_resolved_metrics]) and of the export
    around it ([export_database]).

    Python values are modelled by the inductive type [pyval]; a [dict] is
    an association list in insertion order whose keys are compared the way
    Python compares them; exceptions are an explicit [result]. The
    interpreter's text builtins ([str.strip], [int], [float], the [repr] of
    a float) are an interface, [PyBuiltins], so every general theorem holds
    for whatever those builtins do; [ascii_builtins] implements them for
    ASCII text and is the instance the concrete runs use. *)

From Stdlib Require Import ZArith List String Ascii Bool Lia.
From Stdlib.Strings Require Import Byte.
From Stdlib Require Import DecimalString.
From Stdlib Require Import Sorted Permutation OrderedTypeEx.
From Stdlib Require Import Floats.
Import ListNotations.
Local Open Scope string_scope.
Local Open Scope list_scope.
Local Open Scope Z_scope.

(** ** Python values *)

Definition bytes := list byte.

(** The values [sqlite3] hands to Python, which are also all the values the
    resolver ever builds: [None], [int], [float], [str] (held as its UTF-8
    text) and [bytes]. *)
Inductive pyval : Type :=
| PyNone
| PyInt (z : Z)
| PyFloat (f : float)
| PyStr (s : string)
| PyBytes (b : bytes).

(** The exceptions that can travel through the modelled code. *)
Inductive exn : Type :=
| OperationalError   (* sqlite3.OperationalError *)
| DatabaseError      (* sqlite3.DatabaseError, its parent class *)
| AttributeError
| KeyError.

Inductive result (A : Type) : Type :=
| Ok (a : A)
| Raise (e : exn).

Arguments Ok {A} a.
Arguments Raise {A} e.

Definition bind {A B : Type} (r : result A) (k : A -> result B) : result B :=
  match r with
  | Ok a => k a
  | Raise e => Raise e
  end.

Notation "x <- c ;; k" := (bind c (fun x => k))
  (at level 61, c at next level, right associativity).

(** [for x in xs: s = step(s, x)], stopping at the first exception. *)
Fixpoint for_each {S A : Type} (step : S -> A -> result S) (xs : list A) (s : S)
  : result S :=
  match xs with
  | [] => Ok s
  | x :: xs' => s' <- step s x ;; for_each step xs' s'
  end.

(** *** Truth value, [or], [is None] *)

Definition float_is_zero (f : float) : bool :=
  match Prim2SF f with
  | S754_zero _ => true
  | _ => false
  end.

Definition truthy (v : pyval) : bool :=
  match v with
  | PyNone => false
  | PyInt z => negb (z =? 0)
  | PyFloat f => negb (float_is_zero f)
  | PyStr s => negb (s =? "")%string
  | PyBytes b => match b with [] => false | _ :: _ => true end
  end.

Definition py_or (a b : pyval) : pyval := if truthy a then a else b.

Definition is_none (v : pyval) : bool :=
  match v with
  | PyNone => true
  | _ => false
  end.

(** *** Equality of dictionary keys

    Python finds a key by [==] (after hashing): [1 == 1.0], an [int] and a
    [float] are compared exactly, text and bytes never compare equal, and
    [None] equals only itself. [hashkey_of] sends a value to a normal form
    on which this equality is syntactic: a number is zero, an infinity, or
    [(-1)^neg * m * 2^e] with [m] odd. A NaN key is found again through the
    identity shortcut of the lookup; sqlite3 never delivers one (SQLite
    stores NaN as NULL). *)
Inductive hashkey : Type :=
| KNone
| KZero
| KNum (neg : bool) (m : positive) (e : Z)
| KInf (neg : bool)
| KNan
| KStr (s : string)
| KBytes (b : bytes).

Fixpoint odd_part (m : positive) (e : Z) : positive * Z :=
  match m with
  | xO m' => odd_part m' (e + 1)
  | _ => (m, e)
  end.

Definition hashkey_of (v : pyval) : hashkey :=
  match v with
  | PyNone => KNone
  | PyInt Z0 => KZero
  | PyInt (Zpos p) => let '(m, e) := odd_part p 0 in KNum false m e
  | PyInt (Zneg p) => let '(m, e) := odd_part p 0 in KNum true m e
  | PyFloat f =>
      match Prim2SF f with
      | S754_zero _ => KZero
      | S754_infinity s => KInf s
      | S754_nan => KNan
      | S754_finite s m e => let '(m', e') := odd_part m e in KNum s m' e'
      end
  | PyStr s => KStr s
  | PyBytes b => KBytes b
  end.

Definition hashkey_eq_dec (a b : hashkey) : {a = b} + {a <> b}.
Proof.
  decide equality;
    try apply bool_dec; try apply Z.eq_dec; try apply Pos.eq_dec;
    try apply string_dec.
  apply (list_eq_dec byte_eq_dec).
Defined.

Definition key_eq (a b : pyval) : bool :=
  if hashkey_eq_dec (hashkey_of a) (hashkey_of b) then true else false.

(** *** Dictionaries

    A Python [dict] keeps its keys in insertion order; assigning to a key
    that is already there replaces the value and keeps the old key object
    and its place. *)
Definition dict (V : Type) : Type := list (pyval * V).

Fixpoint dict_get {V : Type} (d : dict V) (k : pyval) : option V :=
  match d with
  | [] => None
  | (k0, v0) :: d' => if key_eq k0 k then Some v0 else dict_get d' k
  end.

Fixpoint dict_set {V : Type} (d : dict V) (k : pyval) (v : V) : dict V :=
  match d with
  | [] => [(k, v)]
  | (k0, v0) :: d' =>
      if key_eq k0 k then (k0, v) :: d' else (k0, v0) :: dict_set d' k v
  end.

Definition dict_keys {V : Type} (d : dict V) : list pyval := map fst d.

(** [d.get(k)]: [None] when the key is missing. *)
Definition dict_get_or_none (d : dict pyval) (k : pyval) : pyval :=
  match dict_get d k with
  | Some v => v
  | None => PyNone
  end.

(** [d.get(k, default)]. *)
Definition dict_get_default {V : Type} (d : dict V) (k : pyval) (default : V) : V :=
  match dict_get d k with
  | Some v => v
  | None => default
  end.

(** ** The interpreter's text builtins *)

(** What the resolver asks of the interpreter about text: [s.strip()],
    [int(s)] and [float(s)] ([None] stands for [ValueError]), and the text
    of a float as [str] and f-strings print it. *)
Class PyBuiltins : Type := {
  str_strip : string -> string;
  int_of_str : string -> option Z;
  float_of_str : string -> option float;
  float_repr : float -> string
}.

(** *** Text of integers and of bytes *)

(** [str(z)] for an [int]: its decimal numeral. *)
Definition int_repr (z : Z) : string :=
  DecimalString.NilZero.string_of_int (Z.to_int z).

Definition byte_is_space (c : byte) : bool :=
  let n := Byte.to_nat c in
  (((9 <=? n) && (n <=? 13)) || (n =? 32))%nat.

Fixpoint bytes_lstrip (b : bytes) : bytes :=
  match b with
  | c :: b' => if byte_is_space c then bytes_lstrip b' else b
  | [] => []
  end.

(** [b.strip()] for [bytes]: ASCII white space off both ends. *)
Definition bytes_strip (b : bytes) : bytes :=
  rev (bytes_lstrip (rev (bytes_lstrip b))).

Definition hex_digit (n : nat) : ascii :=
  nth n (list_ascii_of_string "0123456789abcdef") "0"%char.

Definition escape_byte (quote : nat) (c : byte) : string :=
  let n := Byte.to_nat c in
  if ((n =? quote) || (n =? 92))%nat then String "\" (String (ascii_of_byte c) "")
  else if (n =? 9)%nat then "\t"
  else if (n =? 10)%nat then "\n"
  else if (n =? 13)%nat then "\r"
  else if ((n <? 32) || (127 <=? n))%nat
       then String "\" (String "x" (String (hex_digit (n / 16)) (String (hex_digit (n mod 16)) "")))
  else String (ascii_of_byte c) "".

(** [str(b)] for [bytes]: the literal [b'...'], in double quotes when the
    bytes hold a single quote and no double quote. *)
Definition bytes_repr (b : bytes) : string :=
  let has c := existsb (fun x => (Byte.to_nat x =? c)%nat) b in
  let quote := if has 39%nat && negb (has 34%nat) then 34%nat else 39%nat in
  String "b" (String (ascii_of_nat quote)
    (String.concat "" (map (escape_byte quote) b) ++ String (ascii_of_nat quote) ""))%string.

(** ** The database

    The cursor the script works through, reduced to what its queries read:
    the tables of the file, each with its declared columns and its rows in
    storage order. A cell is a [pyval], the Python value sqlite3 returns
    for it. The file is an SQLite database whose schema can be read; the
    pages of a table may be damaged, and reading its rows then fails with
    [sqlite3.DatabaseError] ("database disk image is malformed"). A column
    may be a generated one: [SELECT *] returns it, [PRAGMA table_info]
    leaves it out. *)

Record column_info : Type := {
  col_name : string;
  col_type : string;
  col_notnull : Z;
  col_default : pyval;
  col_pk : Z;
  col_generated : bool
}.

Record table : Type := {
  tbl_name : string;
  tbl_columns : list column_info;
  tbl_rows : list (list pyval);
  tbl_damaged : bool
}.

Definition database : Type := list table.

(** [row[i]]. Every fetched row has as many cells as its SELECT lists
    columns, so the index is in range wherever the script uses it. *)
Definition item (row : list pyval) (i : nat) : pyval := nth i row PyNone.

(** SQLite compares identifiers without regard to ASCII case. *)
Definition ascii_lower (c : ascii) : ascii :=
  let n := nat_of_ascii c in
  if ((65 <=? n) && (n <=? 90))%nat then ascii_of_nat (n + 32) else c.

Fixpoint ident_eqb (a b : string) : bool :=
  match a, b with
  | EmptyString, EmptyString => true
  | String x a', String y b' =>
      Ascii.eqb (ascii_lower x) (ascii_lower y) && ident_eqb a' b'
  | _, _ => false
  end.

Definition find_table (db : database) (name : string) : option table :=
  find (fun t => ident_eqb (tbl_name t) name) db.

Fixpoint column_index (cols : list column_info) (c : string) : option nat :=
  match cols with
  | [] => None
  | ci :: cols' =>
      if ident_eqb (col_name ci) c then Some O
      else option_map S (column_index cols' c)
  end.

Fixpoint column_indices (cols : list column_info) (cs : list string)
  : option (list nat) :=
  match cs with
  | [] => Some []
  | c :: cs' =>
      match column_index cols c, column_indices cols cs' with
      | Some i, Some rest => Some (i :: rest)
      | _, _ => None
      end
  end.

Definition project (idxs : list nat) (row : list pyval) : list pyval :=
  map (item row) idxs.

(** *** The order of [ORDER BY]

    SQLite sorts NULL first, then numbers by value (integers and reals
    together, compared exactly), then text, then blobs, the last two byte
    by byte. A finite number is [m * 2^e]. *)
Inductive xnum : Type :=
| XNegInf
| XFin (m e : Z)
| XPosInf.

Definition xnum_of (v : pyval) : option xnum :=
  match v with
  | PyInt z => Some (XFin z 0)
  | PyFloat f =>
      match Prim2SF f with
      | S754_zero _ => Some (XFin 0 0)
      | S754_infinity s => Some (if s then XNegInf else XPosInf)
      | S754_nan => None
      | S754_finite s m e => Some (XFin (if s then Zneg m else Zpos m) e)
      end
  | _ => None
  end.

Definition xnum_compare (a b : xnum) : comparison :=
  match a, b with
  | XNegInf, XNegInf => Eq
  | XNegInf, _ => Lt
  | _, XNegInf => Gt
  | XPosInf, XPosInf => Eq
  | XPosInf, _ => Gt
  | _, XPosInf => Lt
  | XFin m1 e1, XFin m2 e2 =>
      let e := Z.min e1 e2 in
      (m1 * 2 ^ (e1 - e) ?= m2 * 2 ^ (e2 - e))
  end.

Definition storage_class (v : pyval) : Z :=
  match v with
  | PyNone => 0
  | PyInt _ => 1
  | PyFloat _ => match xnum_of v with Some _ => 1 | None => 0 end
  | PyStr _ => 2
  | PyBytes _ => 3
  end.

(** Two values of one storage class. *)
Definition content_compare (a b : pyval) : comparison :=
  match a, b with
  | PyStr s, PyStr t => String.compare s t
  | PyBytes x, PyBytes y =>
      String.compare (string_of_list_byte x) (string_of_list_byte y)
  | _, _ =>
      match xnum_of a, xnum_of b with
      | Some x, Some y => xnum_compare x y
      | _, _ => Eq
      end
  end.

Definition sqlite_compare (a b : pyval) : comparison :=
  match storage_class a ?= storage_class b with
  | Eq => content_compare a b
  | c => c
  end.

Definition sqlite_leb (a b : pyval) : bool :=
  match sqlite_compare a b with
  | Gt => false
  | _ => true
  end.

(** Rows sorted on column [i] by insertion. SQLite leaves the order of rows
    with equal keys open; here they keep their storage order, and no
    property below depends on that. *)
Fixpoint insert_row (i : nat) (r : list pyval) (rows : list (list pyval))
  : list (list pyval) :=
  match rows with
  | [] => [r]
  | r' :: rows' =>
      if sqlite_leb (item r i) (item r' i) then r :: rows
      else r' :: insert_row i r rows'
  end.

Definition order_by (i : nat) (rows : list (list pyval)) : list (list pyval) :=
  fold_right (insert_row i) [] rows.

(** Reading the rows of a table. *)
Definition read_rows (t : table) : result (list (list pyval)) :=
  if tbl_damaged t then Raise DatabaseError else Ok (tbl_rows t).

(** [cursor.execute('SELECT cols FROM "tname" [ORDER BY order]')] followed
    by [cursor.fetchall()], for the three constant statements of the
    resolver: a missing table or column raises [sqlite3.OperationalError]
    when the statement is prepared, a damaged table raises
    [sqlite3.DatabaseError] when its rows are read. *)
Definition execute_select (cursor : database) (cols : list string)
    (tname : string) (order : option string) : result (list (list pyval)) :=
  match find_table cursor tname with
  | None => Raise OperationalError
  | Some t =>
      match column_indices (tbl_columns t) cols with
      | None => Raise OperationalError
      | Some idxs =>
          match order with
          | None =>
              rows <- read_rows t ;; Ok (map (project idxs) rows)
          | Some c =>
              match column_index (tbl_columns t) c with
              | None => Raise OperationalError
              | Some i =>
                  rows <- read_rows t ;; Ok (map (project idxs) (order_by i rows))
              end
          end
      end
  end.

(** The table name that the text ["<name>"] denotes once the script has
    pasted a name between double quotes: inside a quoted identifier two
    double quotes stand for one. A double quote of the name without its
    pair ends the identifier early and the statement is no longer the
    intended one ([None]). Of the two statements the script builds from
    such a name, [PRAGMA table_info("<name>")] and [SELECT * FROM "<name>"],
    sqlite3 refuses at least one: the first is well formed only when a
    closing parenthesis follows the shortened identifier, and the second is
    not well formed then. The refusal is modelled where the name is first
    used, as [sqlite3.OperationalError], the class of a syntax error, of an
    unrecognized token and of a table that is not there. *)
Fixpoint sql_quoted (name : string) : option string :=
  match name with
  | EmptyString => Some EmptyString
  | String c rest =>
      if Ascii.eqb c "034" then
        match rest with
        | String c' rest' =>
            if Ascii.eqb c' "034"
            then option_map (String "034"%char) (sql_quoted rest')
            else None
        | EmptyString => None
        end
      else option_map (String c) (sql_quoted rest)
  end.

(** The name holds a double quote. *)
Fixpoint has_quote (name : string) : bool :=
  match name with
  | EmptyString => false
  | String c rest => Ascii.eqb c "034" || has_quote rest
  end.

(** ** The output document *)

(** What [build_resolved_metrics] returns: the dictionary with the keys
    ['prefixes'] and ['metrics']. *)
Record resolved : Type := {
  prefixes : list pyval;
  metrics : dict (dict pyval)
}.

(** One entry of a raw table's ['schema'] list. *)
Record schema_entry : Type := {
  se_cid : pyval;
  se_name : pyval;
  se_type : pyval;
  se_notnull : bool;
  se_default_value : pyval;
  se_pk : bool
}.

(** One entry of ['tables']. *)
Record table_dump : Type := {
  td_columns : list pyval;
  td_schema : list schema_entry;
  td_data : list (dict pyval);
  td_row_count : nat
}.

(** The values the top-level dictionary of the document holds. *)
Inductive field : Type :=
| FPath (s : string)
| FPrefixes (l : list pyval)
| FMetrics (m : dict (dict pyval))
| FTables (t : dict table_dump).

Definition document : Type := dict field.

Section Resolver.

Context {builtins : PyBuiltins}.

(** [str(v)], which is also how an f-string prints [v]. *)
Definition py_str (v : pyval) : string :=
  match v with
  | PyNone => "None"
  | PyInt z => int_repr z
  | PyFloat f => float_repr f
  | PyStr s => s
  | PyBytes b => bytes_repr b
  end.

(** [v.strip()]: text and bytes have the method, the other values raise
    [AttributeError]. *)
Definition method_strip (v : pyval) : result pyval :=
  match v with
  | PyStr s => Ok (PyStr (str_strip s))
  | PyBytes b => Ok (PyBytes (bytes_strip b))
  | _ => Raise AttributeError
  end.

(** ['.' in value] *)
Definition contains_dot (s : string) : bool :=
  existsb (Ascii.eqb ".") (list_ascii_of_string s).

(** ** The script *)

(** [PRAGMA table_info("{table_name}")]: one row
    [(cid, name, type, notnull, dflt_value, pk)] per column that is not
    generated, numbered from 0, and no row for a table that does not exist.
    The schema is read, not the rows of the table. *)
Definition get_table_schema (cursor : database) (table_name : string)
  : result (list (list pyval)) :=
  match sql_quoted table_name with
  | None => Raise OperationalError
  | Some name =>
      match find_table cursor name with
      | None => Ok []
      | Some t =>
          let shown := filter (fun c => negb (col_generated c)) (tbl_columns t) in
          Ok (map (fun '(cid, c) =>
                     [PyInt (Z.of_nat cid); PyStr (col_name c); PyStr (col_type c);
                      PyInt (col_notnull c); col_default c; PyInt (col_pk c)])
                  (combine (seq 0 (List.length shown)) shown))
      end
  end.

Definition get_all_tables (cursor : database) : list string :=
  map tbl_name cursor.

Definition convert_value (value : pyval) : pyval :=
  match value with
  | PyNone => PyNone
  | PyInt _ | PyFloat _ => value
  | PyStr s =>
      if contains_dot s then
        match float_of_str s with
        | Some f => PyFloat f
        | None => value
        end
      else
        match int_of_str s with
        | Some z => PyInt z
        | None => value
        end
  | PyBytes _ => PyStr (py_str value)
  end.

(** [SELECT * FROM "{table_name}"]: all the columns of the table, the
    generated ones too. *)
Definition export_table_data (cursor : database) (table_name : string)
  : result (list (dict pyval)) :=
  match sql_quoted table_name with
  | None => Raise OperationalError
  | Some name =>
      match find_table cursor name with
      | None => Raise OperationalError
      | Some t =>
          let columns := map col_name (tbl_columns t) in
          fetched <- read_rows t ;;
          Ok (map (fun row =>
                     fold_left (fun row_dict '(col, val) =>
                                  dict_set row_dict (PyStr col) (convert_value val))
                               (combine columns
                                        (project (seq 0 (List.length columns)) row))
                               [])
                  fetched)
      end
  end.

(** Lines 77-80: one row of [names]. *)
Definition names_loop_body (names : dict (string * string)) (row : list pyval)
  : result (dict (string * string)) :=
  let nameid := convert_value (item row 0) in
  objectname <-
    (if negb (is_none (item row 1))
     then method_strip (py_or (item row 1) (PyStr ""))
     else Ok (PyStr "")) ;;
  metricname <-
    (if negb (is_none (item row 2))
     then method_strip (py_or (item row 2) (PyStr ""))
     else Ok (PyStr "")) ;;
  Ok (dict_set names nameid (py_str objectname, py_str metricname)).

(** Lines 87-89: one row of [prefixes]. *)
Definition prefixes_loop_body (st : list pyval * dict pyval) (row : list pyval)
  : list pyval * dict pyval :=
  let '(prefixes, prefixid_to_name) := st in
  let pid := convert_value (item row 0) in
  let pname := item row 1 in
  (prefixes ++ [pname], dict_set prefixid_to_name pid pname).

(** Lines 99-108: one row of [values]. [metrics[pname][key] = value]
    changes the inner dictionary in place; in the association list that is
    the outer entry rewritten where it stands. *)
Definition values_loop_body (names : dict (string * string))
    (prefixid_to_name : dict pyval) (metrics : dict (dict pyval))
    (row : list pyval) : result (dict (dict pyval)) :=
  let prefixid := convert_value (item row 0) in
  let nameid := convert_value (item row 1) in
  let core := convert_value (item row 2) in
  let value := convert_value (item row 3) in
  let pname := dict_get_or_none prefixid_to_name prefixid in
  if is_none pname then Ok metrics
  else
    let '(obj, metric) := dict_get_default names nameid ("", "unknown") in
    let key :=
      if negb (obj =? "")%string then (obj ++ "." ++ metric)%string
      else metric in
    let key :=
      if (key =? "")%string then ("nameid_" ++ py_str nameid)%string
      else key in
    match dict_get metrics pname with
    | None => Raise KeyError
    | Some inner => Ok (dict_set metrics pname (dict_set inner (PyStr key) value))
    end.

Definition build_resolved_metrics (cursor : database) : result resolved :=
  rows <- execute_select cursor ["nameid"; "objectname"; "metricname"]
                         "names" None ;;
  names <- for_each names_loop_body rows [] ;;
  rows <- execute_select cursor ["prefixid"; "prefixname"]
                         "prefixes" (Some "prefixid") ;;
  let '(prefixes, prefixid_to_name) :=
    fold_left prefixes_loop_body rows ([], []) in
  let metrics :=
    fold_left (fun metrics pname => dict_set metrics pname []) prefixes [] in
  rows <- execute_select cursor ["prefixid"; "nameid"; "core"; "value"]
                         "values" None ;;
  metrics <- for_each (values_loop_body names prefixid_to_name) rows metrics ;;
  Ok {| prefixes := prefixes; metrics := metrics |}.

(** Lines 139-152: one raw table. *)
Definition raw_table_body (cursor : database) (tables : dict table_dump)
    (table_name : string) : result (dict table_dump) :=
  schema <- get_table_schema cursor table_name ;;
  let columns := map (fun col => item col 1) schema in
  data <- export_table_data cursor table_name ;;
  Ok (dict_set tables (PyStr table_name)
        {| td_columns := columns;
           td_schema :=
             map (fun col =>
                    {| se_cid := item col 0;
                       se_name := item col 1;
                       se_type := item col 2;
                       se_notnull := truthy (item col 3);
                       se_default_value := item col 4;
                       se_pk := truthy (item col 5) |})
                 schema;
           td_data := data;
           td_row_count := List.length data |}).

(** [cursor] is the database that [sqlite3.connect(sqlite_file)] opens. *)
Definition export_database (cursor : database) (sqlite_file : string)
    (format_type : string) (include_raw_tables : bool) : result document :=
  let result := [(PyStr "database", FPath sqlite_file)] in
  result <-
    (match get_all_tables cursor with
     | _ :: _ =>
         match build_resolved_metrics cursor with
         | Ok resolved =>
             Ok (dict_set
                   (dict_set result (PyStr "prefixes")
                             (FPrefixes (prefixes resolved)))
                   (PyStr "metrics") (FMetrics (metrics resolved)))
         | Raise OperationalError =>
             Ok (dict_set
                   (dict_set result (PyStr "metrics") (FMetrics []))
                   (PyStr "prefixes") (FPrefixes []))
         | Raise e => Raise e
         end
     | [] => Ok result
     end) ;;
  if include_raw_tables then
    tables <- for_each (raw_table_body cursor) (get_all_tables cursor) [] ;;
    Ok (dict_set result (PyStr "tables") (FTables tables))
  else Ok result.

End Resolver.

(** ** The builtins on ASCII text

    [str.strip], [int], [float] and the text of a float, implemented for
    text made of ASCII characters: white space, signs, decimal digits with
    single underscores between them, a fraction, an exponent, [inf] and
    [nan]. *)

Definition is_strip_space (c : ascii) : bool :=
  let n := nat_of_ascii c in
  (((9 <=? n) && (n <=? 13)) || ((28 <=? n) && (n <=? 32)))%nat.

(** [int] and [float] skip the white space of C's [isspace] only. *)
Definition is_c_space (c : ascii) : bool :=
  let n := nat_of_ascii c in
  (((9 <=? n) && (n <=? 13)) || (n =? 32))%nat.

Fixpoint drop_while (p : ascii -> bool) (l : list ascii) : list ascii :=
  match l with
  | c :: l' => if p c then drop_while p l' else l
  | [] => []
  end.

Definition trim (p : ascii -> bool) (l : list ascii) : list ascii :=
  rev (drop_while p (rev (drop_while p l))).

Definition ascii_strip (s : string) : string :=
  string_of_list_ascii (trim is_strip_space (list_ascii_of_string s)).

Definition digit_val (c : ascii) : option Z :=
  let n := nat_of_ascii c in
  if ((48 <=? n) && (n <=? 57))%nat then Some (Z.of_nat (n - 48)) else None.

(** The rest of a digit group [D (_? D)*]: the value so far, the number of
    digits so far, and what follows the group. *)
Fixpoint digits_tail (l : list ascii) (acc n : Z) : Z * Z * list ascii :=
  match l with
  | [] => (acc, n, [])
  | c :: l' =>
      match digit_val c with
      | Some d => digits_tail l' (acc * 10 + d) (n + 1)
      | None =>
          if Ascii.eqb c "_" then
            match l' with
            | c2 :: l'' =>
                match digit_val c2 with
                | Some d => digits_tail l'' (acc * 10 + d) (n + 1)
                | None => (acc, n, l)
                end
            | [] => (acc, n, l)
            end
          else (acc, n, l)
      end
  end.

Definition read_digits (l : list ascii) (acc n : Z)
  : option (Z * Z * list ascii) :=
  match l with
  | c :: l' =>
      match digit_val c with
      | Some d => Some (digits_tail l' (acc * 10 + d) (n + 1))
      | None => None
      end
  | [] => None
  end.

Definition read_sign (l : list ascii) : bool * list ascii :=
  match l with
  | c :: l' =>
      if Ascii.eqb c "-" then (true, l')
      else if Ascii.eqb c "+" then (false, l')
      else (false, l)
  | [] => (false, l)
  end.

Definition ascii_int (s : string) : option Z :=
  let '(neg, l) := read_sign (trim is_c_space (list_ascii_of_string s)) in
  match read_digits l 0 0 with
  | Some (v, _, []) => Some (if neg then - v else v)
  | _ => None
  end.

(** The binary64 nearest to [(-1)^neg * m * 10^e], ties to even. *)
Definition dec_to_float (neg : bool) (m e : Z) : float :=
  SF2Prim
    match m with
    | Zpos p =>
        if 0 <=? e
        then binary_normalize prec emax ((if neg then - m else m) * 10 ^ e) 0 neg
        else SFdiv prec emax (S754_finite neg p 0)
                   (S754_finite false (Z.to_pos (10 ^ (- e))) 0)
    | _ => S754_zero neg
    end.

Definition read_exponent (l : list ascii) : option Z :=
  match l with
  | [] => Some 0
  | c :: l' =>
      if Ascii.eqb (ascii_lower c) "e" then
        let '(neg, l2) := read_sign l' in
        match read_digits l2 0 0 with
        | Some (v, _, []) => Some (if neg then - v else v)
        | _ => None
        end
      else None
  end.

Definition read_decimal (neg : bool) (l : list ascii) : option float :=
  let '(m, ni, l1) :=
    match read_digits l 0 0 with
    | Some r => r
    | None => (0, 0, l)
    end in
  let '(m, nf, l2) :=
    match l1 with
    | c :: l1' =>
        if Ascii.eqb c "." then
          match read_digits l1' m 0 with
          | Some r => r
          | None => (m, 0, l1')
          end
        else (m, 0, l1)
    | [] => (m, 0, l1)
    end in
  if ni + nf =? 0 then None
  else
    match read_exponent l2 with
    | Some e => Some (dec_to_float neg m (e - nf))
    | None => None
    end.

Definition ascii_float (s : string) : option float :=
  let '(neg, l) := read_sign (trim is_c_space (list_ascii_of_string s)) in
  let w := string_of_list_ascii (map ascii_lower l) in
  if ((w =? "inf") || (w =? "infinity"))%string
  then Some (if neg then neg_infinity else infinity)
  else if (w =? "nan")%string then Some nan
  else read_decimal neg l.

(** *** The text of a float: the shortest digits that read back *)

(** [10^k <= num / den] *)
Definition pow10_le (k num den : Z) : bool :=
  if 0 <=? k then 10 ^ k * den <=? num else den <=? num * 10 ^ (- k).

(** The [k] with [10^(k-1) <= num / den < 10^k], searched downwards. *)
Fixpoint find_decpt (fuel : nat) (k num den : Z) : Z :=
  match fuel with
  | O => k
  | S fuel' =>
      if pow10_le (k - 1) num den then k else find_decpt fuel' (k - 1) num den
  end.

(** The [n]-digit numeral next to [num / den] that reads back as [f], the
    nearer one when both neighbours do. *)
Definition candidate (f : float) (num den k n : Z) : option Z :=
  let p := n - k in
  let a := if 0 <=? p then num * 10 ^ p else num in
  let b := if 0 <=? p then den else den * 10 ^ (- p) in
  let lo := a / b in
  let r := a mod b in
  let reads c := PrimFloat.eqb (dec_to_float false c (k - n)) f in
  match reads lo, reads (lo + 1) with
  | true, true =>
      Some (if 2 * r <? b then lo
            else if b <? 2 * r then lo + 1
            else if Z.even lo then lo else lo + 1)
  | true, false => Some lo
  | false, true => Some (lo + 1)
  | false, false => None
  end.

Fixpoint shortest (fuel : nat) (f : float) (num den k n : Z) : Z * Z :=
  match fuel with
  | O => (0, n)
  | S fuel' =>
      match candidate f num den k n with
      | Some c => (c, n)
      | None => shortest fuel' f num den k (n + 1)
      end
  end.

Definition zeros (n : Z) : list ascii := repeat "0"%char (Z.to_nat n).

Definition repr_digits (ds : list ascii) (decpt : Z) : string :=
  let nd := Z.of_nat (List.length ds) in
  if (decpt <=? -4) || (16 <? decpt) then
    let mant :=
      match ds with
      | d :: (_ :: _) as rest => d :: "."%char :: rest
      | _ => ds
      end in
    let e := decpt - 1 in
    let et := int_repr (Z.abs e) in
    (string_of_list_ascii mant ++ "e" ++ (if (e <? 0)%Z then "-" else "+")
       ++ (if (String.length et <? 2)%nat then "0" else "") ++ et)%string
  else if decpt <=? 0 then
    string_of_list_ascii ("0"%char :: "."%char :: zeros (- decpt) ++ ds)
  else if nd <=? decpt then
    string_of_list_ascii (ds ++ zeros (decpt - nd) ++ [ "."%char; "0"%char ])
  else
    string_of_list_ascii
      (firstn (Z.to_nat decpt) ds ++ "."%char :: skipn (Z.to_nat decpt) ds).

Definition ascii_float_repr (f : float) : string :=
  match Prim2SF f with
  | S754_nan => "nan"
  | S754_infinity s => if s then "-inf" else "inf"
  | S754_zero s => if s then "-0.0" else "0.0"
  | S754_finite s m e =>
      let num := if 0 <=? e then Zpos m * 2 ^ e else Zpos m in
      let den := if 0 <=? e then 1 else 2 ^ (- e) in
      let k := find_decpt 700 310 num den in
      let '(c, n) :=
        shortest 17 (SF2Prim (S754_finite false m e)) num den k 1 in
      let ds := list_ascii_of_string (int_repr c) in
      let decpt := k + (Z.of_nat (List.length ds) - n) in
      let ds := rev (drop_while (Ascii.eqb "0") (rev ds)) in
      ((if s then "-" else "") ++ repr_digits ds decpt)%string
  end.

Definition ascii_builtins : PyBuiltins := {|
  str_strip := ascii_strip;
  int_of_str := ascii_int;
  float_of_str := ascii_float;
  float_repr := ascii_float_repr
|}.

(** ** What the resolver is expected to do

    The observations and the composed key of the specification, written
    from its words, to state the properties of the code against. *)

Section Specification.

Context {builtins : PyBuiltins}.

(** [metrics[pname][key]], when both keys are there. *)
Definition lookup2 (m : dict (dict pyval)) (pname : pyval) (key : string)
  : option pyval :=
  match dict_get m pname with
  | Some inner => dict_get inner (PyStr key)
  | None => None
  end.

(** "If objectName is non-empty, key = objectName + "." + metricName;
    otherwise key = metricName." *)
Definition base_key (objectName metricName : string) : string :=
  if (objectName =? "")%string then metricName
  else (objectName ++ "." ++ metricName)%string.

(** "If the resulting key is still empty, fall back to the literal key
    "nameid_" + nameIdentifier." *)
Definition spec_key (objectName metricName : string) (nameIdentifier : pyval)
  : string :=
  if (base_key objectName metricName =? "")%string
  then ("nameid_" ++ py_str nameIdentifier)%string
  else base_key objectName metricName.

(** The (objectName, metricName) pair of a value row: the dictionary entry
    of its name identifier, or [("", "unknown")]. *)
Definition row_names (names : dict (string * string)) (row : list pyval)
  : string * string :=
  dict_get_default names (convert_value (item row 1)) ("", "unknown").

Definition row_key (names : dict (string * string)) (row : list pyval) : string :=
  spec_key (fst (row_names names row)) (snd (row_names names row))
           (convert_value (item row 1)).

(** The prefix name a value row is stored under: the one its prefix
    identifier looks up, unless the lookup gives [None]. *)
Definition row_prefix (prefixid_to_name : dict pyval) (row : list pyval)
  : option pyval :=
  match dict_get prefixid_to_name (convert_value (item row 0)) with
  | Some pname => if is_none pname then None else Some pname
  | None => None
  end.

(** The row stores its value at [metrics[pname][key]]. *)
Definition writes (names : dict (string * string)) (prefixid_to_name : dict pyval)
    (row : list pyval) (pname : pyval) (key : string) : bool :=
  match row_prefix prefixid_to_name row with
  | Some p => key_eq p pname && (row_key names row =? key)%string
  | None => false
  end.

(** The value of the last of [rows] that writes [metrics[pname][key]], or
    [acc] when none does. *)
Fixpoint last_write (names : dict (string * string)) (prefixid_to_name : dict pyval)
    (rows : list (list pyval)) (pname : pyval) (key : string)
    (acc : option pyval) : option pyval :=
  match rows with
  | [] => acc
  | row :: rows' =>
      last_write names prefixid_to_name rows' pname key
        (if writes names prefixid_to_name row pname key
         then Some (convert_value (item row 3)) else acc)
  end.

(** The prefix dictionary the second loop builds. *)
Definition prefix_dict (prows : list (list pyval)) : dict pyval :=
  snd (fold_left prefixes_loop_body prows ([], [])).

(** The three tables are there and the names loop went through: [nrows],
    [prows] and [vrows] are what the three queries fetch, [names] the
    dictionary built from [nrows]. *)
Definition loaded (cursor : database) (nrows : list (list pyval))
    (names : dict (string * string)) (prows vrows : list (list pyval)) : Prop :=
  execute_select cursor ["nameid"; "objectname"; "metricname"] "names" None
    = Ok nrows /\
  for_each names_loop_body nrows [] = Ok names /\
  execute_select cursor ["prefixid"; "prefixname"] "prefixes" (Some "prefixid")
    = Ok prows /\
  execute_select cursor ["prefixid"; "nameid"; "core"; "value"] "values" None
    = Ok vrows.

(** The first thing that goes wrong in the resolver is a query that raises
    [sqlite3.OperationalError], which is what a query does when its table or
    one of its columns is missing: the names query raises it; or the names
    are fetched and trimmed and the prefixes query raises it; or the
    prefixes are fetched too and the values query raises it. *)
Definition required_missing (cursor : database) : Prop :=
  execute_select cursor ["nameid"; "objectname"; "metricname"] "names" None
    = Raise OperationalError \/
  exists nrows names,
    execute_select cursor ["nameid"; "objectname"; "metricname"] "names" None
      = Ok nrows /\
    for_each names_loop_body nrows [] = Ok names /\
    (execute_select cursor ["prefixid"; "prefixname"] "prefixes"
                    (Some "prefixid") = Raise OperationalError \/
     exists prows,
       execute_select cursor ["prefixid"; "prefixname"] "prefixes"
                      (Some "prefixid") = Ok prows /\
       execute_select cursor ["prefixid"; "nameid"; "core"; "value"] "values" None
         = Raise OperationalError).

(** Every table of the database can be dumped: its name holds no double
    quote, so that ["<name>"] denotes it, and its rows can be read. *)
Definition dumpable (cursor : database) : Prop :=
  Forall (fun t => has_quote (tbl_name t) = false /\ tbl_damaged t = false)
         cursor.

(** The key as the docstring of [build_resolved_metrics] words it,
    ["objectname.metricname[core]"]. The code does not compute it; it is
    here to be compared with [row_key]. *)
Definition docstring_key (obj metric : string) (core : pyval) : string :=
  obj ++ "." ++ metric ++ "[" ++ py_str core ++ "]".

(** A cell of the names table that is blank once trimmed: NULL, text that
    strips to nothing, or a value the script replaces by [''] first. *)
Definition blank_cell (c : pyval) : Prop :=
  c = PyNone \/
  (exists s, c = PyStr s /\ str_strip s = "") \/
  (truthy c = false /\ str_strip "" = "").

(** A cell of the names table the script can trim: NULL or text. *)
Definition text_or_null (c : pyval) : Prop :=
  match c with
  | PyNone | PyStr _ => True
  | _ => False
  end.

(** Every name of the prefix dictionary is a key of [metrics]: the lookup
    [metrics[pname]] of line 108 cannot fail. *)
Definition covers (p2n : dict pyval) (m : dict (dict pyval)) : Prop :=
  forall pid pname, dict_get p2n pid = Some pname -> dict_get m pname <> None.

End Specification.

(** The keys of a dictionary filled with [l] in order: each key once, where
    it first occurs. *)
Definition first_occurrences (l : list pyval) : list pyval :=
  fold_left (fun acc p => if existsb (fun q => key_eq q p) acc then acc else acc ++ [p])
            l [].

(** Ascending order of rows on column [i], and of fetched prefix rows on
    their identifier. *)
Definition key_le (i : nat) (a b : list pyval) : Prop :=
  sqlite_leb (item a i) (item b i) = true.

Definition id_le (a b : list pyval) : Prop := key_le 0 a b.

(** ** Example databases *)

Definition column (name type : string) : column_info :=
  {| col_name := name; col_type := type; col_notnull := 0;
     col_default := PyNone; col_pk := 0; col_generated := false |}.

Definition names_table (rows : list (list pyval)) : table :=
  {| tbl_name := "names";
     tbl_columns := [column "nameid" "INTEGER"; column "objectname" "TEXT";
                     column "metricname" "TEXT"];
     tbl_rows := rows; tbl_damaged := false |}.

Definition prefixes_table (rows : list (list pyval)) : table :=
  {| tbl_name := "prefixes";
     tbl_columns := [column "prefixid" "INTEGER"; column "prefixname" "TEXT"];
     tbl_rows := rows; tbl_damaged := false |}.

Definition values_table (rows : list (list pyval)) : table :=
  {| tbl_name := "values";
     tbl_columns := [column "prefixid" "INTEGER"; column "nameid" "INTEGER";
                     column "core" "INTEGER"; column "value" "INTEGER"];
     tbl_rows := rows; tbl_damaged := false |}.

(** A statistics database with the three tables Sniper writes. *)
Definition stats_db (names prefixes values : list (list pyval)) : database :=
  [names_table names; prefixes_table prefixes; values_table values].

(** ** Keys and dictionaries *)

Lemma key_eq_iff (a b : pyval) :
  key_eq a b = true <-> hashkey_of a = hashkey_of b.
Proof.
  unfold key_eq. destruct (hashkey_eq_dec (hashkey_of a) (hashkey_of b)).
  - tauto.
  - split; [discriminate | contradiction].
Qed.

Lemma key_eq_refl (a : pyval) : key_eq a a = true.
Proof. apply key_eq_iff. reflexivity. Qed.

Lemma key_eq_sym (a b : pyval) : key_eq a b = key_eq b a.
Proof.
  unfold key_eq.
  destruct (hashkey_eq_dec (hashkey_of a) (hashkey_of b)),
           (hashkey_eq_dec (hashkey_of b) (hashkey_of a)); congruence.
Qed.

(** Equal keys are interchangeable in every comparison. *)
Lemma key_eq_congr (a b c : pyval) :
  key_eq a b = true -> key_eq a c = key_eq b c.
Proof.
  intros H. apply key_eq_iff in H. unfold key_eq. rewrite H. reflexivity.
Qed.

Lemma key_eq_congr_r (a b c : pyval) :
  key_eq a b = true -> key_eq c a = key_eq c b.
Proof.
  intros H. rewrite (key_eq_sym c a), (key_eq_sym c b). now apply key_eq_congr.
Qed.

Lemma key_eq_str (s t : string) : key_eq (PyStr s) (PyStr t) = (s =? t)%string.
Proof.
  destruct (String.eqb_spec s t) as [->|Hne].
  - apply key_eq_refl.
  - destruct (key_eq (PyStr s) (PyStr t)) eqn:E; [|reflexivity].
    apply key_eq_iff in E. simpl in E. congruence.
Qed.

Lemma dict_get_set {V : Type} (d : dict V) (k k' : pyval) (v : V) :
  dict_get (dict_set d k v) k' = if key_eq k k' then Some v else dict_get d k'.
Proof.
  induction d as [|[k0 v0] d IH]; simpl.
  - reflexivity.
  - destruct (key_eq k0 k) eqn:E0; simpl.
    + rewrite (key_eq_congr _ _ k' E0). destruct (key_eq k k'); reflexivity.
    + rewrite IH. destruct (key_eq k0 k') eqn:E1; [|reflexivity].
      destruct (key_eq k k') eqn:E2; [|reflexivity].
      rewrite key_eq_sym in E2.
      rewrite (key_eq_congr_r _ _ k0 E2) in E1. congruence.
Qed.

(** Assigning to a key that is there leaves the keys and their order. *)
Lemma dict_keys_set_present {V : Type} (d : dict V) (k : pyval) (v : V) :
  dict_get d k <> None -> dict_keys (dict_set d k v) = dict_keys d.
Proof.
  induction d as [|[k0 v0] d IH]; simpl; intros H.
  - congruence.
  - destruct (key_eq k0 k); simpl; [reflexivity|].
    f_equal. now apply IH.
Qed.

Lemma dict_keys_set_absent {V : Type} (d : dict V) (k : pyval) (v : V) :
  dict_get d k = None -> dict_keys (dict_set d k v) = dict_keys d ++ [k].
Proof.
  induction d as [|[k0 v0] d IH]; simpl; intros H.
  - reflexivity.
  - destruct (key_eq k0 k); simpl; [discriminate|].
    f_equal. now apply IH.
Qed.

Lemma dict_get_in_keys {V : Type} (d : dict V) (k : pyval) :
  dict_get d k <> None <-> existsb (fun q => key_eq q k) (dict_keys d) = true.
Proof.
  induction d as [|[k0 v0] d IH]; simpl.
  - split; [congruence | discriminate].
  - destruct (key_eq k0 k); simpl.
    + split; [reflexivity | discriminate].
    + exact IH.
Qed.

Lemma dict_get_key_eq {V : Type} (d : dict V) (a b : pyval) :
  key_eq a b = true -> dict_get d a = dict_get d b.
Proof.
  intros H. induction d as [|[k0 v0] d IH]; simpl.
  - reflexivity.
  - rewrite (key_eq_congr_r _ _ k0 H), IH. reflexivity.
Qed.

(** ** The loops of [build_resolved_metrics] *)

Section Loops.

Context {builtins : PyBuiltins}.

(** The metrics dictionary of lines 92-94. *)
Lemma init_metrics_get (l : list pyval) : forall (acc : dict (dict pyval)) (k : pyval),
  dict_get (fold_left (fun metrics pname => dict_set metrics pname []) l acc) k
  = if existsb (fun q => key_eq q k) l then Some [] else dict_get acc k.
Proof.
  induction l as [|p l IH]; intros acc k; simpl.
  - reflexivity.
  - rewrite IH, dict_get_set.
    destruct (existsb (fun q => key_eq q k) l); [now rewrite orb_true_r|].
    rewrite orb_false_r. destruct (key_eq p k); reflexivity.
Qed.

Lemma init_metrics_keys (l : list pyval) : forall (acc : dict (dict pyval)),
  dict_keys (fold_left (fun metrics pname => dict_set metrics pname []) l acc)
  = fold_left (fun a p => if existsb (fun q => key_eq q p) a then a else a ++ [p])
              l (dict_keys acc).
Proof.
  induction l as [|p l IH]; intros acc; simpl.
  - reflexivity.
  - rewrite IH. f_equal.
    destruct (existsb (fun q => key_eq q p) (dict_keys acc)) eqn:E.
    + apply dict_keys_set_present. now apply dict_get_in_keys.
    + apply dict_keys_set_absent.
      destruct (dict_get acc p) eqn:G; [|reflexivity].
      assert (H : dict_get acc p <> None) by congruence.
      apply dict_get_in_keys in H. congruence.
Qed.

(** The prefix loop of lines 86-89: the list of names in row order, and the
    dictionary from identifier to name. *)
Lemma prefixes_loop_spec (prows : list (list pyval)) :
  forall (ps : list pyval) (d : dict pyval),
    fold_left prefixes_loop_body prows (ps, d)
    = (ps ++ map (fun r => item r 1) prows,
       fold_left (fun d r => dict_set d (convert_value (item r 0)) (item r 1))
                 prows d).
Proof.
  induction prows as [|r prows IH]; intros ps d; simpl.
  - now rewrite app_nil_r.
  - rewrite IH, <- app_assoc. reflexivity.
Qed.

Lemma prefix_dict_names_aux (prows : list (list pyval)) :
  forall (d : dict pyval) (pid pname : pyval),
    dict_get (fold_left (fun d r => dict_set d (convert_value (item r 0)) (item r 1))
                        prows d) pid = Some pname ->
    dict_get d pid = Some pname \/
    exists r, In r prows /\ item r 1 = pname /\
              key_eq (convert_value (item r 0)) pid = true.
Proof.
  induction prows as [|r prows IH]; intros d pid pname H; simpl in H.
  - now left.
  - apply IH in H. destruct H as [H | (r' & Hin & Hn & Hk)].
    + rewrite dict_get_set in H.
      destruct (key_eq (convert_value (item r 0)) pid) eqn:E.
      * right. exists r. repeat split; [now left | congruence | exact E].
      * now left.
    + right. exists r'. repeat split; [now right | exact Hn | exact Hk].
Qed.

(** Every name the prefix dictionary holds is the name of a prefix row. *)
Lemma prefix_dict_names (prows : list (list pyval)) (pid pname : pyval) :
  dict_get (prefix_dict prows) pid = Some pname ->
  exists r, In r prows /\ item r 1 = pname /\
            key_eq (convert_value (item r 0)) pid = true.
Proof.
  unfold prefix_dict. rewrite prefixes_loop_spec. simpl. intros H.
  apply prefix_dict_names_aux in H. destruct H as [H | H]; [discriminate | exact H].
Qed.

(** The body of the values loop, read through the specification's key. *)
Lemma values_loop_body_spec (names : dict (string * string)) (p2n : dict pyval)
    (m : dict (dict pyval)) (row : list pyval) :
  values_loop_body names p2n m row =
  match row_prefix p2n row with
  | None => Ok m
  | Some pname =>
      match dict_get m pname with
      | None => Raise KeyError
      | Some inner =>
          Ok (dict_set m pname
                (dict_set inner (PyStr (row_key names row))
                          (convert_value (item row 3))))
      end
  end.
Proof.
  unfold values_loop_body, row_prefix, dict_get_or_none, row_key, row_names,
    spec_key, base_key.
  destruct (dict_get p2n (convert_value (item row 0))) as [pname|]; simpl;
    [|reflexivity].
  destruct (is_none pname); [reflexivity|].
  destruct (dict_get_default names (convert_value (item row 1)) ("", "unknown"))
    as [obj metric]; simpl.
  destruct (obj =? "")%string; simpl; reflexivity.
Qed.

Lemma row_prefix_covered (p2n : dict pyval) (m : dict (dict pyval))
    (row : list pyval) (pname : pyval) :
  covers p2n m -> row_prefix p2n row = Some pname -> dict_get m pname <> None.
Proof.
  unfold row_prefix. intros Hc H.
  destruct (dict_get p2n (convert_value (item row 0))) as [p|] eqn:E;
    [|discriminate].
  destruct (is_none p); [discriminate|]. injection H as <-. now apply (Hc _ _ E).
Qed.

(** One row of the values loop: it succeeds, keeps the keys of [metrics],
    and changes at most the entry it writes. *)
Lemma values_loop_body_step (names : dict (string * string)) (p2n : dict pyval)
    (m : dict (dict pyval)) (row : list pyval) :
  covers p2n m ->
  exists m',
    values_loop_body names p2n m row = Ok m' /\
    covers p2n m' /\
    dict_keys m' = dict_keys m /\
    (forall pname key,
        lookup2 m' pname key =
        if writes names p2n row pname key
        then Some (convert_value (item row 3)) else lookup2 m pname key) /\
    (forall pname,
        (forall p, row_prefix p2n row = Some p -> key_eq p pname = false) ->
        dict_get m' pname = dict_get m pname).
Proof.
  intros Hc. rewrite values_loop_body_spec. unfold writes.
  destruct (row_prefix p2n row) as [p|] eqn:Hp.
  - pose proof (row_prefix_covered _ _ _ _ Hc Hp) as Hin.
    destruct (dict_get m p) as [inner|] eqn:Hm; [|congruence].
    eexists. split; [reflexivity|]. repeat split.
    + intros pid pname H. rewrite dict_get_set.
      destruct (key_eq p pname); [congruence | now apply (Hc pid)].
    + apply dict_keys_set_present. congruence.
    + intros pname key. unfold lookup2. rewrite dict_get_set.
      destruct (key_eq p pname) eqn:E; simpl.
      * rewrite dict_get_set, key_eq_str.
        rewrite <- (dict_get_key_eq m _ _ E), Hm. reflexivity.
      * reflexivity.
    + intros pname H. rewrite dict_get_set, (H p eq_refl). reflexivity.
  - exists m. repeat split; auto.
Qed.

(** The whole values loop: the final [metrics[pname][key]] is the value of
    the last row that writes it. *)
Lemma values_loop_spec (names : dict (string * string)) (p2n : dict pyval)
    (rows : list (list pyval)) :
  forall m : dict (dict pyval),
    covers p2n m ->
    exists m',
      for_each (values_loop_body names p2n) rows m = Ok m' /\
      dict_keys m' = dict_keys m /\
      (forall pname key,
          lookup2 m' pname key =
          last_write names p2n rows pname key (lookup2 m pname key)) /\
      (forall pname,
          (forall row p, In row rows -> row_prefix p2n row = Some p ->
                         key_eq p pname = false) ->
          dict_get m' pname = dict_get m pname).
Proof.
  induction rows as [|row rows IH]; intros m Hc; simpl.
  - exists m. repeat split; auto.
  - destruct (values_loop_body_step names p2n m row Hc)
      as (m1 & Hstep & Hc1 & Hk1 & Hl1 & Hu1).
    rewrite Hstep. simpl.
    destruct (IH m1 Hc1) as (m' & Hloop & Hk & Hl & Hu).
    exists m'. split; [exact Hloop|]. repeat split.
    + congruence.
    + intros pname key. rewrite Hl, Hl1. reflexivity.
    + intros pname H. rewrite Hu, Hu1.
      * reflexivity.
      * intros p. apply (H row p). now left.
      * intros r p Hin. apply (H r p). now right.
Qed.

(** *** Facts about [last_write] *)

Lemma last_write_app (names : dict (string * string)) (p2n : dict pyval)
    (l1 l2 : list (list pyval)) (pname : pyval) (key : string) :
  forall acc,
    last_write names p2n (l1 ++ l2) pname key acc
    = last_write names p2n l2 pname key (last_write names p2n l1 pname key acc).
Proof.
  induction l1 as [|r l1 IH]; intros acc; simpl; [reflexivity | apply IH].
Qed.

Lemma last_write_untouched (names : dict (string * string)) (p2n : dict pyval)
    (rows : list (list pyval)) (pname : pyval) (key : string) :
  forall acc,
    (forall row, In row rows -> writes names p2n row pname key = false) ->
    last_write names p2n rows pname key acc = acc.
Proof.
  induction rows as [|r rows IH]; intros acc H; simpl.
  - reflexivity.
  - rewrite (H r (or_introl eq_refl)). apply IH.
    intros row Hin. apply H. now right.
Qed.

(** A value found in the output is the converted value of a row that
    writes there. *)
Lemma last_write_source (names : dict (string * string)) (p2n : dict pyval)
    (rows : list (list pyval)) (pname : pyval) (key : string) (v : pyval) :
  forall acc,
    last_write names p2n rows pname key acc = Some v ->
    acc = Some v \/
    exists row, In row rows /\ writes names p2n row pname key = true /\
                v = convert_value (item row 3).
Proof.
  induction rows as [|r rows IH]; intros acc H; simpl in H.
  - now left.
  - apply IH in H. destruct H as [H | (row & Hin & Hw & Hv)].
    + destruct (writes names p2n r pname key) eqn:E.
      * right. exists r. repeat split; [now left | exact E | congruence].
      * now left.
    + right. exists row. repeat split; [now right | exact Hw | exact Hv].
Qed.

(** A row that writes leaves a value there, its own or a later row's. *)
Lemma last_write_present (names : dict (string * string)) (p2n : dict pyval)
    (rows : list (list pyval)) (pname : pyval) (key : string) :
  forall acc,
    (acc <> None \/
     exists row, In row rows /\ writes names p2n row pname key = true) ->
    last_write names p2n rows pname key acc <> None.
Proof.
  induction rows as [|r rows IH]; intros acc H; simpl.
  - destruct H as [H | (row & [] & _)]. exact H.
  - apply IH. destruct H as [H | (row & [-> | Hin] & Hw)].
    + left. destruct (writes names p2n r pname key); congruence.
    + left. rewrite Hw. congruence.
    + right. now exists row.
Qed.

Lemma prefix_dict_eq (prows : list (list pyval)) :
  prefix_dict prows
  = fold_left (fun d r => dict_set d (convert_value (item r 0)) (item r 1)) prows [].
Proof. unfold prefix_dict. now rewrite prefixes_loop_spec. Qed.

Lemma covers_init (prows : list (list pyval)) :
  covers (prefix_dict prows)
         (fold_left (fun metrics pname => dict_set metrics pname [])
                    (map (fun r => item r 1) prows) []).
Proof.
  intros pid pname H. apply prefix_dict_names in H.
  destruct H as (r & Hin & Hn & _). rewrite init_metrics_get.
  assert (E : existsb (fun q => key_eq q pname) (map (fun r => item r 1) prows) = true).
  { apply existsb_exists. exists (item r 1). split.
    - apply in_map_iff. now exists r.
    - rewrite Hn. apply key_eq_refl. }
  rewrite E. congruence.
Qed.

(** ** The resolver as a whole

    With the three tables fetched and the names dictionary built, the
    resolver returns: the prefix names in the order of the sorted prefix
    rows, a [metrics] dictionary with one key per prefix name in that
    order, and under each of them the value of the last row written to
    every key. *)
Lemma build_resolved_metrics_spec (cursor : database) (nrows : list (list pyval))
    (names : dict (string * string)) (prows vrows : list (list pyval)) :
  loaded cursor nrows names prows vrows ->
  exists res,
    build_resolved_metrics cursor = Ok res /\
    prefixes res = map (fun r => item r 1) prows /\
    dict_keys (metrics res) = first_occurrences (prefixes res) /\
    (forall pname key,
        lookup2 (metrics res) pname key
        = last_write names (prefix_dict prows) vrows pname key None) /\
    (forall pname,
        (forall row p, In row vrows ->
                       row_prefix (prefix_dict prows) row = Some p ->
                       key_eq p pname = false) ->
        dict_get (metrics res) pname
        = if existsb (fun q => key_eq q pname) (prefixes res)
          then Some [] else None).
Proof.
  intros (Hn & Hnames & Hp & Hv).
  unfold build_resolved_metrics. rewrite Hn. simpl. rewrite Hnames. simpl.
  rewrite Hp. simpl. rewrite prefixes_loop_spec. simpl. rewrite Hv. simpl.
  rewrite <- prefix_dict_eq.
  destruct (values_loop_spec names (prefix_dict prows) vrows _ (covers_init prows))
    as (m' & Hloop & Hk & Hl & Hu).
  rewrite Hloop. simpl. eexists. split; [reflexivity|]. simpl. repeat split.
  - rewrite Hk. now rewrite init_metrics_keys.
  - intros pname key. rewrite Hl. f_equal.
    unfold lookup2. rewrite init_metrics_get.
    destruct (existsb _ _); reflexivity.
  - intros pname H. rewrite (Hu pname H). apply init_metrics_get.
Qed.

Lemma for_each_app {S A : Type} (step : S -> A -> result S) (l1 l2 : list A) :
  forall s,
    for_each step (l1 ++ l2) s = (s' <- for_each step l1 s ;; for_each step l2 s').
Proof.
  induction l1 as [|x l1 IH]; intros s; simpl.
  - reflexivity.
  - destruct (step s x); simpl; [apply IH | reflexivity].
Qed.

(** With the tables fetched, the resolver is its values loop run from the
    empty per-prefix dictionaries. *)
Lemma build_resolved_metrics_loaded (cursor : database) (nrows : list (list pyval))
    (names : dict (string * string)) (prows vrows : list (list pyval)) :
  loaded cursor nrows names prows vrows ->
  build_resolved_metrics cursor =
  (m <- for_each (values_loop_body names (prefix_dict prows)) vrows
          (fold_left (fun metrics pname => dict_set metrics pname [])
                     (map (fun r => item r 1) prows) []) ;;
   Ok {| prefixes := map (fun r => item r 1) prows; metrics := m |}).
Proof.
  intros (Hn & Hnames & Hp & Hv).
  unfold build_resolved_metrics. rewrite Hn. simpl. rewrite Hnames. simpl.
  rewrite Hp. simpl. rewrite prefixes_loop_spec. simpl. rewrite Hv. simpl.
  rewrite <- prefix_dict_eq. reflexivity.
Qed.

End Loops.

Lemma first_occurrences_mem (l : list pyval) (k : pyval) :
  existsb (fun q => key_eq q k) (first_occurrences l) = true <->
  existsb (fun q => key_eq q k) l = true.
Proof.
  pose proof (init_metrics_keys l []) as Hk. simpl in Hk.
  fold (first_occurrences l) in Hk. rewrite <- Hk, <- dict_get_in_keys.
  rewrite init_metrics_get. simpl.
  destruct (existsb (fun q => key_eq q k) l); split; intros H;
    try reflexivity; try discriminate; now contradiction H.
Qed.

(** ** The order of [ORDER BY] is a total preorder *)

Lemma string_compare_trans (a b c : string) :
  String.compare a b <> Gt -> String.compare b c <> Gt -> String.compare a c <> Gt.
Proof.
  intros Hab Hbc.
  destruct (String.compare a b) eqn:E1; [| |congruence].
  - apply String_as_OT.cmp_eq in E1. now subst.
  - destruct (String.compare b c) eqn:E2; [| |congruence].
    + apply String_as_OT.cmp_eq in E2. subst. rewrite E1. discriminate.
    + apply String_as_OT.cmp_lt in E1. apply String_as_OT.cmp_lt in E2.
      pose proof (String_as_OT.lt_trans _ _ _ E1 E2) as H.
      apply String_as_OT.cmp_lt in H. unfold String_as_OT.cmp in H.
      rewrite H. discriminate.
Qed.

(** Two finite numbers compare the same at any common exponent. *)
Lemma xfin_compare_scale (m1 e1 m2 e2 e : Z) :
  e <= e1 -> e <= e2 ->
  (m1 * 2 ^ (e1 - Z.min e1 e2) ?= m2 * 2 ^ (e2 - Z.min e1 e2))
  = (m1 * 2 ^ (e1 - e) ?= m2 * 2 ^ (e2 - e)).
Proof.
  intros H1 H2. set (k := Z.min e1 e2 - e).
  assert (Hk : 0 <= k) by (unfold k; lia).
  replace (e1 - e) with ((e1 - Z.min e1 e2) + k) by (unfold k; lia).
  replace (e2 - e) with ((e2 - Z.min e1 e2) + k) by (unfold k; lia).
  rewrite !Z.pow_add_r by lia. rewrite !Z.mul_assoc.
  apply Zmult_compare_compat_r. apply Z.lt_gt. apply Z.pow_pos_nonneg; lia.
Qed.

Lemma xnum_compare_antisym (a b : xnum) :
  xnum_compare b a = CompOpp (xnum_compare a b).
Proof.
  destruct a as [|m1 e1|], b as [|m2 e2|]; simpl; try reflexivity.
  rewrite (Z.min_comm e2 e1). apply Z.compare_antisym.
Qed.

Lemma xnum_compare_trans (a b c : xnum) :
  xnum_compare a b <> Gt -> xnum_compare b c <> Gt -> xnum_compare a c <> Gt.
Proof.
  destruct a as [|m1 e1|], b as [|m2 e2|], c as [|m3 e3|]; simpl; try congruence.
  set (e := Z.min e1 (Z.min e2 e3)).
  rewrite (xfin_compare_scale m1 e1 m2 e2 e), (xfin_compare_scale m2 e2 m3 e3 e),
          (xfin_compare_scale m1 e1 m3 e3 e) by (unfold e; lia).
  apply Z.le_trans.
Qed.

Ltac split_floats :=
  repeat match goal with
         | |- context [Prim2SF ?f] => destruct (Prim2SF f)
         end.

Lemma content_compare_antisym (a b : pyval) :
  content_compare b a = CompOpp (content_compare a b).
Proof.
  destruct a, b; unfold content_compare, xnum_of; split_floats;
    try reflexivity; try apply String.compare_antisym;
    apply xnum_compare_antisym.
Qed.

Lemma sqlite_compare_antisym (a b : pyval) :
  sqlite_compare b a = CompOpp (sqlite_compare a b).
Proof.
  unfold sqlite_compare.
  rewrite (Z.compare_antisym (storage_class a) (storage_class b)).
  destruct (storage_class a ?= storage_class b); simpl; try reflexivity.
  apply content_compare_antisym.
Qed.

Lemma sqlite_leb_total (a b : pyval) :
  sqlite_leb a b = false -> sqlite_leb b a = true.
Proof.
  unfold sqlite_leb. rewrite (sqlite_compare_antisym a b).
  destruct (sqlite_compare a b); simpl; congruence.
Qed.

Lemma content_compare_trans (a b c : pyval) :
  storage_class a = storage_class b ->
  storage_class b = storage_class c ->
  content_compare a b <> Gt -> content_compare b c <> Gt ->
  content_compare a c <> Gt.
Proof.
  destruct a, b, c; unfold storage_class, content_compare, xnum_of; split_floats;
    intros; try discriminate; try congruence;
    try (eapply string_compare_trans; eassumption);
    eapply xnum_compare_trans; eassumption.
Qed.

Lemma sqlite_leb_trans (a b c : pyval) :
  sqlite_leb a b = true -> sqlite_leb b c = true -> sqlite_leb a c = true.
Proof.
  unfold sqlite_leb, sqlite_compare. intros Hab Hbc.
  destruct (Z.compare_spec (storage_class a) (storage_class b)) as [Eab|Lab|Gab];
    [| |discriminate];
    destruct (Z.compare_spec (storage_class b) (storage_class c)) as [Ebc|Lbc|Gbc];
    try discriminate.
  - rewrite Eab, Ebc, Z.compare_refl.
    pose proof (content_compare_trans a b c Eab Ebc) as H.
    destruct (content_compare a c); try reflexivity.
    exfalso. apply H; [| |reflexivity].
    + destruct (content_compare a b); congruence.
    + destruct (content_compare b c); congruence.
  - assert (H : storage_class a < storage_class c) by lia.
    apply Z.compare_lt_iff in H. now rewrite H.
  - assert (H : storage_class a < storage_class c) by lia.
    apply Z.compare_lt_iff in H. now rewrite H.
  - assert (H : storage_class a < storage_class c) by lia.
    apply Z.compare_lt_iff in H. now rewrite H.
Qed.

(** On integer identifiers the order is the order of the integers. *)
Lemma sqlite_leb_int (a b : Z) : sqlite_leb (PyInt a) (PyInt b) = (a <=? b).
Proof.
  unfold sqlite_leb, sqlite_compare, content_compare, xnum_of, xnum_compare.
  change (storage_class (PyInt a) ?= storage_class (PyInt b)) with Eq.
  change (2 ^ (0 - Z.min 0 0)) with 1. rewrite !Z.mul_1_r. unfold Z.leb.
  destruct (a ?= b); reflexivity.
Qed.

(** *** Sorting by insertion *)

Lemma insert_row_perm (i : nat) (r : list pyval) (rows : list (list pyval)) :
  Permutation (insert_row i r rows) (r :: rows).
Proof.
  induction rows as [|r' rows IH]; simpl.
  - apply Permutation_refl.
  - destruct (sqlite_leb (item r i) (item r' i)).
    + apply Permutation_refl.
    + apply perm_trans with (r' :: r :: rows).
      * now apply perm_skip.
      * apply perm_swap.
Qed.

Lemma order_by_perm (i : nat) (rows : list (list pyval)) :
  Permutation (order_by i rows) rows.
Proof.
  induction rows as [|r rows IH]; simpl.
  - apply perm_nil.
  - apply perm_trans with (r :: order_by i rows).
    + apply insert_row_perm.
    + now apply perm_skip.
Qed.

Lemma insert_row_sorted (i : nat) (r : list pyval) (rows : list (list pyval)) :
  StronglySorted (key_le i) rows -> StronglySorted (key_le i) (insert_row i r rows).
Proof.
  induction rows as [|r' rows IH]; simpl; intros Hs.
  - constructor; [constructor | constructor].
  - inversion Hs as [|? ? Hs' Hall]; subst.
    destruct (sqlite_leb (item r i) (item r' i)) eqn:E.
    + constructor; [exact Hs|]. constructor; [exact E|].
      apply Forall_forall. intros x Hx. rewrite Forall_forall in Hall.
      unfold key_le. apply sqlite_leb_trans with (item r' i); [exact E|].
      now apply Hall.
    + constructor; [now apply IH|].
      apply (Permutation_Forall (Permutation_sym (insert_row_perm i r rows))).
      constructor; [|exact Hall]. now apply sqlite_leb_total.
Qed.

Lemma order_by_sorted (i : nat) (rows : list (list pyval)) :
  StronglySorted (key_le i) (order_by i rows).
Proof.
  induction rows as [|r rows IH]; simpl.
  - constructor.
  - now apply insert_row_sorted.
Qed.

(** Projecting the sort column to the front keeps the rows sorted. *)
Lemma project_sorted (i : nat) (rest : list nat) (rows : list (list pyval)) :
  StronglySorted (key_le i) rows ->
  StronglySorted id_le (map (project (i :: rest)) rows).
Proof.
  induction 1 as [|r rows Hs IH Hall]; simpl.
  - constructor.
  - constructor; [exact IH|].
    apply Forall_map. revert Hall. apply Forall_impl. intros x Hx. exact Hx.
Qed.

(** What the prefix query returns: the rows of the table sorted on the
    identifier column, reduced to (identifier, name). *)
Lemma select_prefixes_inv (cursor : database) (prows : list (list pyval)) :
  execute_select cursor ["prefixid"; "prefixname"] "prefixes" (Some "prefixid")
    = Ok prows ->
  exists t i j,
    find_table cursor "prefixes" = Some t /\
    column_index (tbl_columns t) "prefixid" = Some i /\
    column_index (tbl_columns t) "prefixname" = Some j /\
    prows = map (project [i; j]) (order_by i (tbl_rows t)).
Proof.
  unfold execute_select, read_rows.
  destruct (find_table cursor "prefixes") as [t|] eqn:Ht; [|discriminate].
  simpl.
  destruct (column_index (tbl_columns t) "prefixid") as [i|] eqn:Hi; [|discriminate].
  destruct (column_index (tbl_columns t) "prefixname") as [j|] eqn:Hj; [|discriminate].
  destruct (tbl_damaged t); [discriminate|]. simpl.
  intros [= <-]. exists t, i, j. repeat split; assumption || reflexivity.
Qed.

(** ** The names dictionary *)

Lemma bytes_repr_not_empty (b : bytes) : bytes_repr b <> "".
Proof. unfold bytes_repr. discriminate. Qed.

(** A names cell whose trimmed text is empty is a blank cell. *)
Lemma trimmed_blank {builtins : PyBuiltins} (c v : pyval) :
  (if negb (is_none c) then method_strip (py_or c (PyStr "")) else Ok (PyStr ""))
  = Ok v ->
  py_str v = "" -> blank_cell c.
Proof.
  unfold blank_cell, py_or. destruct c as [|z|f|s|b].
  - intros _ _. now left.
  - cbn [is_none negb truthy]. destruct (z =? 0); cbn [negb method_strip];
      [|discriminate].
    intros [= <-] Hv. right. right. now split.
  - cbn [is_none negb truthy]. destruct (float_is_zero f); cbn [negb method_strip];
      [|discriminate].
    intros [= <-] Hv. right. right. now split.
  - cbn [is_none negb truthy].
    destruct (String.eqb_spec s "") as [->|Hne]; cbn [negb method_strip].
    + intros [= <-] Hv. right. left. now exists "".
    + intros [= <-] Hv. right. left. now exists s.
  - cbn [is_none negb truthy]. destruct b as [|x b]; cbn [method_strip].
    + intros [= <-] Hv. right. right. now split.
    + intros [= <-] Hv. cbn [py_str] in Hv. now apply bytes_repr_not_empty in Hv.
Qed.

Lemma names_loop_body_inv {builtins : PyBuiltins} (names names' : dict (string * string))
    (row : list pyval) :
  names_loop_body names row = Ok names' ->
  exists o m,
    names' = dict_set names (convert_value (item row 0)) (o, m) /\
    (o = "" -> blank_cell (item row 1)) /\
    (m = "" -> blank_cell (item row 2)).
Proof.
  unfold names_loop_body.
  destruct (if negb (is_none (item row 1)) then _ else _) as [vo|] eqn:Eo;
    simpl; [|discriminate].
  destruct (if negb (is_none (item row 2)) then _ else _) as [vm|] eqn:Em;
    simpl; [|discriminate].
  intros [= <-]. exists (py_str vo), (py_str vm). split; [reflexivity|]. split.
  - now apply trimmed_blank.
  - now apply trimmed_blank.
Qed.

(** An entry of the names dictionary comes from a names row with that
    identifier. *)
Lemma names_loop_entry {builtins : PyBuiltins} (nrows : list (list pyval)) :
  forall (acc names : dict (string * string)) (k : pyval) (o m : string),
    for_each names_loop_body nrows acc = Ok names ->
    dict_get names k = Some (o, m) ->
    dict_get acc k = Some (o, m) \/
    exists nrow,
      In nrow nrows /\
      key_eq (convert_value (item nrow 0)) k = true /\
      (o = "" -> blank_cell (item nrow 1)) /\
      (m = "" -> blank_cell (item nrow 2)).
Proof.
  induction nrows as [|r nrows IH]; intros acc names k o m Hloop Hget; simpl in Hloop.
  - injection Hloop as <-. now left.
  - destruct (names_loop_body acc r) as [acc'|] eqn:Hbody; simpl in Hloop;
      [|discriminate].
    destruct (IH _ _ _ _ _ Hloop Hget) as [H | (nrow & Hin & Hk & Ho & Hm)].
    + apply names_loop_body_inv in Hbody.
      destruct Hbody as (o' & m' & -> & Ho & Hm).
      rewrite dict_get_set in H.
      destruct (key_eq (convert_value (item r 0)) k) eqn:E.
      * injection H as -> ->. right. exists r.
        repeat split; [now left | exact E | exact Ho | exact Hm].
      * now left.
    + right. exists nrow. repeat split; [now right | exact Hk | exact Ho | exact Hm].
Qed.

Lemma base_key_empty (o m : string) : base_key o m = "" -> o = "" /\ m = "".
Proof.
  unfold base_key. destruct (String.eqb_spec o "") as [->|Hne].
  - now intros ->.
  - destruct o; [congruence | discriminate].
Qed.

(** ** The export *)

(** A query fails in one of two ways. *)
Lemma execute_select_raises (cursor : database) (cols : list string)
    (tname : string) (order : option string) (e : exn) :
  execute_select cursor cols tname order = Raise e ->
  e = OperationalError \/ e = DatabaseError.
Proof.
  unfold execute_select, read_rows.
  destruct (find_table cursor tname) as [t|]; [|left; congruence].
  destruct (column_indices (tbl_columns t) cols); [|left; congruence].
  destruct order as [c|].
  - destruct (column_index (tbl_columns t) c); [|left; congruence].
    destruct (tbl_damaged t); simpl; [right; congruence | discriminate].
  - destruct (tbl_damaged t); simpl; [right; congruence | discriminate].
Qed.

(** A query on a table that is not there fails. *)
Lemma execute_select_missing (cursor : database) (cols : list string)
    (tname : string) (order : option string) :
  find_table cursor tname = None ->
  execute_select cursor cols tname order = Raise OperationalError.
Proof. unfold execute_select. now intros ->. Qed.

(** Text and NULL cells are all the names loop needs to go through. *)
Lemma names_loop_total {builtins : PyBuiltins} (nrows : list (list pyval)) :
  forall acc : dict (string * string),
    (forall row, In row nrows ->
                 text_or_null (item row 1) /\ text_or_null (item row 2)) ->
    exists names, for_each names_loop_body nrows acc = Ok names.
Proof.
  induction nrows as [|r nrows IH]; intros acc H; simpl.
  - now exists acc.
  - destruct (H r (or_introl eq_refl)) as [H1 H2].
    assert (Hb : exists acc', names_loop_body acc r = Ok acc').
    { unfold names_loop_body, py_or.
      destruct (item r 1); try contradiction; destruct (item r 2); try contradiction;
        simpl; try destruct (negb (s =? ""))%string;
        try destruct (negb (s0 =? ""))%string; simpl; eexists; reflexivity. }
    destruct Hb as (acc' & ->). simpl. apply IH.
    intros row Hin. apply H. now right.
Qed.

Lemma required_missing_raises {builtins : PyBuiltins} (cursor : database) :
  required_missing cursor ->
  build_resolved_metrics cursor = Raise OperationalError.
Proof.
  unfold build_resolved_metrics.
  intros [Hn | (nrows & names & Hn & Hnames & Hpv)]; rewrite Hn; simpl;
    [reflexivity|].
  rewrite Hnames. simpl.
  destruct Hpv as [Hp | (prows & Hp & Hv)]; rewrite Hp; simpl; [reflexivity|].
  destruct (fold_left prefixes_loop_body prows ([], [])) as [ps p2n].
  rewrite Hv. reflexivity.
Qed.

Lemma ident_eqb_refl (a : string) : ident_eqb a a = true.
Proof.
  induction a as [|c a IH]; simpl; [reflexivity|].
  now rewrite Ascii.eqb_refl, IH.
Qed.

Lemma find_table_listed (cursor : database) (name : string) :
  In name (map tbl_name cursor) -> find_table cursor name <> None.
Proof.
  intros Hin Hnone. apply in_map_iff in Hin. destruct Hin as (t & <- & Hin).
  unfold find_table in Hnone.
  pose proof (find_none _ _ Hnone t Hin) as H. simpl in H.
  now rewrite ident_eqb_refl in H.
Qed.

(** A name is quoted to itself exactly when it holds no double quote. *)
Lemma sql_quoted_plain (name : string) :
  has_quote name = false -> sql_quoted name = Some name.
Proof.
  induction name as [|c rest IH]; simpl; [reflexivity|].
  destruct (Ascii.eqb c "034"); simpl; [discriminate|].
  intros H. now rewrite (IH H).
Qed.

Lemma sql_quoted_length (n : nat) :
  forall name r,
    (String.length name <= n)%nat -> sql_quoted name = Some r ->
    (String.length r <= String.length name)%nat.
Proof.
  induction n as [|n IH]; intros [|c rest] r Hn; simpl in *;
    try (intros [= <-]; simpl; lia); try lia.
  destruct (Ascii.eqb c "034").
  - destruct rest as [|c' rest']; [discriminate|].
    destruct (Ascii.eqb c' "034"); [|discriminate].
    destruct (sql_quoted rest') as [r'|] eqn:E; [|discriminate].
    intros [= <-]. simpl in *.
    assert ((String.length r' <= String.length rest')%nat)
      by (apply IH; [lia | exact E]).
    lia.
  - destruct (sql_quoted rest) as [r'|] eqn:E; [|discriminate].
    intros [= <-]. simpl.
    assert ((String.length r' <= String.length rest)%nat)
      by (apply IH; [lia | exact E]).
    lia.
Qed.

Lemma sql_quoted_self (name : string) :
  sql_quoted name = Some name -> has_quote name = false.
Proof.
  induction name as [|c rest IH]; simpl; [reflexivity|].
  destruct (Ascii.eqb c "034"); simpl.
  - destruct rest as [|c' rest']; [discriminate|].
    destruct (Ascii.eqb c' "034"); [|discriminate].
    destruct (sql_quoted rest') as [r'|] eqn:E; [|discriminate].
    intros [= Hr]. subst r'.
    pose proof (sql_quoted_length _ _ _ (le_n _) E) as Hl. simpl in Hl. lia.
  - destruct (sql_quoted rest) as [r'|] eqn:E; [|discriminate].
    intros [= ->]. now apply IH.
Qed.

Lemma find_table_in (cursor : database) (name : string) (t : table) :
  find_table cursor name = Some t -> In t cursor.
Proof. intros H. exact (proj1 (find_some _ _ H)). Qed.

(** In a database whose tables can all be dumped, a listed name is quoted
    to itself and resolves to a table whose rows can be read. *)
Lemma dumpable_listed (cursor : database) (name : string) :
  dumpable cursor ->
  In name (get_all_tables cursor) ->
  sql_quoted name = Some name /\
  exists t, find_table cursor name = Some t /\ tbl_damaged t = false.
Proof.
  intros Hd Hin. unfold dumpable in Hd. rewrite Forall_forall in Hd.
  split.
  - apply in_map_iff in Hin. destruct Hin as (t & <- & Hin).
    apply sql_quoted_plain. exact (proj1 (Hd t Hin)).
  - destruct (find_table cursor name) as [t|] eqn:Ht.
    + exists t. split; [reflexivity|].
      exact (proj2 (Hd t (find_table_in _ _ _ Ht))).
    + now apply find_table_listed in Hin.
Qed.

(** The dump of the raw tables goes through when every table can be
    dumped. *)
Lemma raw_tables_total {builtins : PyBuiltins} (cursor : database)
    (tnames : list string) :
  forall acc : dict table_dump,
    dumpable cursor ->
    (forall name, In name tnames -> In name (get_all_tables cursor)) ->
    exists tables, for_each (raw_table_body cursor) tnames acc = Ok tables.
Proof.
  induction tnames as [|name tnames IH]; intros acc Hd H; simpl.
  - now exists acc.
  - destruct (dumpable_listed cursor name Hd (H name (or_introl eq_refl)))
      as (Hq & t & Ht & Hok).
    unfold raw_table_body at 1, get_table_schema, export_table_data, read_rows.
    rewrite Hq, Ht, Hok. simpl.
    apply IH; [exact Hd|]. intros n Hn. apply H. now right.
Qed.

(** ** The properties of the resolver *)

(** C1. A value row whose prefix identifier is in the prefix dictionary
    writes under one key only, the composed key: objectName + "." +
    metricName when objectName is non-empty, metricName alone otherwise,
    and "nameid_" followed by the name identifier when that is empty
    ([spec_key]). Any entry of [metrics] the row changes is that key under
    its prefix name; when the name is not [None] the row's value is stored
    there, and the resolver's output has that key under the prefix name. *)
Theorem key_composition {builtins : PyBuiltins} (cursor : database)
    (nrows : list (list pyval)) (names : dict (string * string))
    (prows vrows : list (list pyval)) (row : list pyval)
    (pname : pyval) (objectName metricName : string) :
  loaded cursor nrows names prows vrows ->
  In row vrows ->
  dict_get (prefix_dict prows) (convert_value (item row 0)) = Some pname ->
  dict_get_default names (convert_value (item row 1)) ("", "unknown")
    = (objectName, metricName) ->
  let key := spec_key objectName metricName (convert_value (item row 1)) in
  (forall m, covers (prefix_dict prows) m ->
     exists m',
       values_loop_body names (prefix_dict prows) m row = Ok m' /\
       (forall q k, lookup2 m' q k <> lookup2 m q k ->
                    key_eq pname q = true /\ k = key) /\
       (is_none pname = false ->
        lookup2 m' pname key = Some (convert_value (item row 3)))) /\
  (exists res,
     build_resolved_metrics cursor = Ok res /\
     (is_none pname = false -> lookup2 (metrics res) pname key <> None)).
Proof.
  intros Hl Hin Hp Hn key.
  assert (Hkey : row_key names row = key).
  { unfold row_key, row_names. now rewrite Hn. }
  assert (Hpre : is_none pname = false ->
                 row_prefix (prefix_dict prows) row = Some pname).
  { intros E. unfold row_prefix. now rewrite Hp, E. }
  split.
  - intros m Hc.
    destruct (values_loop_body_step names (prefix_dict prows) m row Hc)
      as (m' & Hstep & _ & _ & Hlk & _).
    exists m'. split; [exact Hstep|]. split.
    + intros q k Hne. rewrite Hlk in Hne. unfold writes, row_prefix in Hne.
      rewrite Hp in Hne. destruct (is_none pname); [congruence|].
      destruct (key_eq pname q); simpl in Hne; [|congruence].
      split; [reflexivity|].
      destruct (String.eqb_spec (row_key names row) k); congruence.
    + intros E. rewrite Hlk. unfold writes. rewrite (Hpre E), key_eq_refl, Hkey.
      now rewrite String.eqb_refl.
  - destruct (build_resolved_metrics_spec _ _ _ _ _ Hl)
      as (res & Hb & _ & _ & Hlk & _).
    exists res. split; [exact Hb|]. intros E. rewrite Hlk.
    apply last_write_present. right. exists row. split; [exact Hin|].
    unfold writes. rewrite (Hpre E), key_eq_refl, Hkey. now rewrite String.eqb_refl.
Qed.

(** A run of C1: the row [(10, 1, 0, "3.5")] is stored under
    ["thread.time"]. *)
Lemma key_composition_witness :
  exists res,
    build_resolved_metrics (builtins := ascii_builtins)
      (stats_db [[PyInt 1; PyStr "thread"; PyStr "time"]]
                [[PyInt 10; PyStr "roi"]]
                [[PyInt 10; PyInt 1; PyInt 0; PyStr "3.5"]]) = Ok res /\
    lookup2 (metrics res) (PyStr "roi") "thread.time" <> None.
Proof.
  destruct (key_composition (builtins := ascii_builtins)
              (stats_db [[PyInt 1; PyStr "thread"; PyStr "time"]]
                        [[PyInt 10; PyStr "roi"]]
                        [[PyInt 10; PyInt 1; PyInt 0; PyStr "3.5"]])
              [[PyInt 1; PyStr "thread"; PyStr "time"]]
              [(PyInt 1, ("thread", "time"))]
              [[PyInt 10; PyStr "roi"]]
              [[PyInt 10; PyInt 1; PyInt 0; PyStr "3.5"]]
              [PyInt 10; PyInt 1; PyInt 0; PyStr "3.5"]
              (PyStr "roi") "thread" "time")
    as (_ & res & Hb & Hk).
  - repeat split; reflexivity.
  - now left.
  - reflexivity.
  - reflexivity.
  - exists res. split; [exact Hb | now apply Hk].
Defined.

(** C2. A value row whose prefix identifier is not in the prefix
    dictionary contributes nothing: its pass through the loop body raises
    no error and returns [metrics] as it found it, and a database whose
    values table holds the row resolves to exactly what the database
    without the row resolves to. *)
Theorem unknown_prefix_dropped {builtins : PyBuiltins} (cursor cursor' : database)
    (nrows : list (list pyval)) (names : dict (string * string))
    (prows l1 l2 : list (list pyval)) (row : list pyval) :
  loaded cursor nrows names prows (l1 ++ row :: l2) ->
  loaded cursor' nrows names prows (l1 ++ l2) ->
  dict_get (prefix_dict prows) (convert_value (item row 0)) = None ->
  (forall m, values_loop_body names (prefix_dict prows) m row = Ok m) /\
  build_resolved_metrics cursor = build_resolved_metrics cursor' /\
  exists res, build_resolved_metrics cursor = Ok res.
Proof.
  intros Hl Hl' Hp.
  assert (Hbody : forall m, values_loop_body names (prefix_dict prows) m row = Ok m).
  { intros m. rewrite values_loop_body_spec. unfold row_prefix. now rewrite Hp. }
  split; [exact Hbody|]. split.
  - rewrite (build_resolved_metrics_loaded _ _ _ _ _ Hl),
            (build_resolved_metrics_loaded _ _ _ _ _ Hl').
    f_equal. rewrite !for_each_app.
    destruct (for_each (values_loop_body names (prefix_dict prows)) l1 _);
      simpl; [|reflexivity].
    now rewrite Hbody.
  - destruct (build_resolved_metrics_spec _ _ _ _ _ Hl) as (res & Hb & _).
    now exists res.
Qed.

(** A run of C2: the row of prefix 11, which no prefix row declares,
    leaves the output of the database without it. *)
Lemma unknown_prefix_dropped_witness :
  build_resolved_metrics (builtins := ascii_builtins)
    (stats_db [[PyInt 1; PyStr "thread"; PyStr "time"]]
              [[PyInt 10; PyStr "roi"]]
              ([[PyInt 10; PyInt 1; PyInt 0; PyInt 4]]
                 ++ [PyInt 11; PyInt 1; PyInt 0; PyInt 9] :: []))
  = build_resolved_metrics (builtins := ascii_builtins)
      (stats_db [[PyInt 1; PyStr "thread"; PyStr "time"]]
                [[PyInt 10; PyStr "roi"]]
                ([[PyInt 10; PyInt 1; PyInt 0; PyInt 4]] ++ [])).
Proof.
  refine (proj1 (proj2 (unknown_prefix_dropped (builtins := ascii_builtins)
            _ _
            [[PyInt 1; PyStr "thread"; PyStr "time"]]
            [(PyInt 1, ("thread", "time"))]
            [[PyInt 10; PyStr "roi"]]
            [[PyInt 10; PyInt 1; PyInt 0; PyInt 4]] []
            [PyInt 11; PyInt 1; PyInt 0; PyInt 9] _ _ _))).
  - repeat split; reflexivity.
  - repeat split; reflexivity.
  - reflexivity.
Defined.

(** C3. When several value rows resolve to the same (prefixName, key)
    pair, the output holds exactly the value of the one processed last,
    whatever the earlier ones carried: nothing is added up or averaged. *)
Theorem last_row_wins {builtins : PyBuiltins} (cursor : database)
    (nrows : list (list pyval)) (names : dict (string * string))
    (prows l1 l2 : list (list pyval)) (row : list pyval)
    (pname : pyval) (key : string) :
  loaded cursor nrows names prows (l1 ++ row :: l2) ->
  writes names (prefix_dict prows) row pname key = true ->
  (forall r, In r l2 -> writes names (prefix_dict prows) r pname key = false) ->
  exists res,
    build_resolved_metrics cursor = Ok res /\
    lookup2 (metrics res) pname key = Some (convert_value (item row 3)).
Proof.
  intros Hl Hw Hlast.
  destruct (build_resolved_metrics_spec _ _ _ _ _ Hl) as (res & Hb & _ & _ & Hlk & _).
  exists res. split; [exact Hb|].
  rewrite Hlk, last_write_app. simpl. rewrite Hw.
  now apply last_write_untouched.
Qed.

(** A run of C3: two rows for ["roi"], ["thread.time"]; the second value
    stays. *)
Lemma last_row_wins_witness :
  exists res,
    build_resolved_metrics (builtins := ascii_builtins)
      (stats_db [[PyInt 1; PyStr "thread"; PyStr "time"]]
                [[PyInt 10; PyStr "roi"]]
                ([[PyInt 10; PyInt 1; PyInt 0; PyInt 4]]
                   ++ [PyInt 10; PyInt 1; PyInt 1; PyInt 9] :: [])) = Ok res /\
    lookup2 (metrics res) (PyStr "roi") "thread.time" = Some (PyInt 9).
Proof.
  apply (last_row_wins (builtins := ascii_builtins) _
           [[PyInt 1; PyStr "thread"; PyStr "time"]]
           [(PyInt 1, ("thread", "time"))]
           [[PyInt 10; PyStr "roi"]]
           [[PyInt 10; PyInt 1; PyInt 0; PyInt 4]] []
           [PyInt 10; PyInt 1; PyInt 1; PyInt 9] (PyStr "roi") "thread.time").
  - repeat split; reflexivity.
  - reflexivity.
  - intros r [].
Defined.

(** C4. Every value stored in the output is [convert_value] of the value
    cell of a row that writes there. On text, [convert_value] gives a float
    when the text holds a decimal separator and parses as a float, an
    integer when it holds none and parses as an integer, and the text
    itself in every other case. The database with names (1, "thread",
    "time"), prefixes (10, "roi") and values (10, 1, 0, "3.5") resolves to
    [{"roi": {"thread.time": 3.5}}], 3.5 a float. *)
Theorem best_effort_coercion :
  (forall (builtins : PyBuiltins) (cursor : database) (nrows : list (list pyval))
          (names : dict (string * string)) (prows vrows : list (list pyval)),
      loaded cursor nrows names prows vrows ->
      exists res,
        build_resolved_metrics cursor = Ok res /\
        forall pname key v,
          lookup2 (metrics res) pname key = Some v ->
          exists row,
            In row vrows /\
            writes names (prefix_dict prows) row pname key = true /\
            v = convert_value (item row 3)) /\
  (forall (builtins : PyBuiltins) (s : string),
      (forall f, contains_dot s = true -> float_of_str s = Some f ->
                 convert_value (PyStr s) = PyFloat f) /\
      (forall z, contains_dot s = false -> int_of_str s = Some z ->
                 convert_value (PyStr s) = PyInt z) /\
      ((contains_dot s = true -> float_of_str s = None) ->
       (contains_dot s = false -> int_of_str s = None) ->
       convert_value (PyStr s) = PyStr s)) /\
  build_resolved_metrics (builtins := ascii_builtins)
    (stats_db [[PyInt 1; PyStr "thread"; PyStr "time"]]
              [[PyInt 10; PyStr "roi"]]
              [[PyInt 10; PyInt 1; PyInt 0; PyStr "3.5"]])
  = Ok {| prefixes := [PyStr "roi"];
          metrics := [(PyStr "roi", [(PyStr "thread.time", PyFloat 3.5%float)])] |}.
Proof.
  split; [|split].
  - intros builtins cursor nrows names prows vrows Hl.
    destruct (build_resolved_metrics_spec _ _ _ _ _ Hl)
      as (res & Hb & _ & _ & Hlk & _).
    exists res. split; [exact Hb|].
    intros pname key v Hv. rewrite Hlk in Hv.
    apply last_write_source in Hv. destruct Hv as [Hv | Hv]; [discriminate | exact Hv].
  - intros builtins s. unfold convert_value. repeat split.
    + intros f Hd Hf. now rewrite Hd, Hf.
    + intros z Hd Hz. now rewrite Hd, Hz.
    + intros Hf Hz. destruct (contains_dot s).
      * now rewrite Hf.
      * now rewrite Hz.
  - vm_compute. reflexivity.
Qed.

(** A run of C4: the value found under ["thread.time"] comes from the
    value cell ["3.5"] of a row. *)
Lemma best_effort_coercion_witness :
  exists res,
    build_resolved_metrics (builtins := ascii_builtins)
      (stats_db [[PyInt 1; PyStr "thread"; PyStr "time"]]
                [[PyInt 10; PyStr "roi"]]
                [[PyInt 10; PyInt 1; PyInt 0; PyStr "3.5"]]) = Ok res /\
    forall pname key v,
      lookup2 (metrics res) pname key = Some v ->
      exists row,
        In row [[PyInt 10; PyInt 1; PyInt 0; PyStr "3.5"]] /\
        writes (builtins := ascii_builtins) [(PyInt 1, ("thread", "time"))]
               (prefix_dict (builtins := ascii_builtins) [[PyInt 10; PyStr "roi"]])
               row pname key = true /\
        v = convert_value (builtins := ascii_builtins) (item row 3).
Proof.
  apply (proj1 best_effort_coercion ascii_builtins _
           [[PyInt 1; PyStr "thread"; PyStr "time"]]).
  repeat split; reflexivity.
Defined.

(** C5, as stated, fails on two counts. A prefix row may carry the name
    NULL: prefix identifier 10 is then in the prefix dictionary, name
    identifier 7 is in no names row, and yet the row is dropped by the
    test [pname is None]. And the stored value is converted like any other:
    the text ["3.5"] is stored as the float 3.5, not verbatim. *)
Lemma unknown_name_not_always_kept_verbatim :
  (dict_get (prefix_dict (builtins := ascii_builtins) [[PyInt 10; PyNone]])
            (convert_value (builtins := ascii_builtins) (PyInt 10)) = Some PyNone /\
   build_resolved_metrics (builtins := ascii_builtins)
     (stats_db [] [[PyInt 10; PyNone]] [[PyInt 10; PyInt 7; PyInt 0; PyInt 5]])
   = Ok {| prefixes := [PyNone]; metrics := [(PyNone, [])] |}) /\
  (build_resolved_metrics (builtins := ascii_builtins)
     (stats_db [] [[PyInt 10; PyStr "roi"]]
               [[PyInt 10; PyInt 7; PyInt 0; PyStr "3.5"]])
   = Ok {| prefixes := [PyStr "roi"];
           metrics := [(PyStr "roi", [(PyStr "unknown", PyFloat 3.5%float)])] |} /\
   PyFloat 3.5%float <> PyStr "3.5").
Proof.
  repeat split; try (vm_compute; reflexivity). discriminate.
Qed.

(** C5, amended. A value row whose name identifier is not in the names
    dictionary, and whose prefix identifier looks up a prefix name that is
    not [None], is not dropped: its names default to [("", "unknown")], the
    loop body stores its converted value under the key ["unknown"] of that
    prefix, and the output has that key, with this row's value unless a
    later row writes the same key. *)
Theorem unknown_name_sentinel {builtins : PyBuiltins} (cursor : database)
    (nrows : list (list pyval)) (names : dict (string * string))
    (prows l1 l2 : list (list pyval)) (row : list pyval) (pname : pyval) :
  loaded cursor nrows names prows (l1 ++ row :: l2) ->
  dict_get names (convert_value (item row 1)) = None ->
  dict_get (prefix_dict prows) (convert_value (item row 0)) = Some pname ->
  is_none pname = false ->
  row_names names row = ("", "unknown") /\
  (forall m inner,
      dict_get m pname = Some inner ->
      values_loop_body names (prefix_dict prows) m row
      = Ok (dict_set m pname
              (dict_set inner (PyStr "unknown") (convert_value (item row 3))))) /\
  exists res,
    build_resolved_metrics cursor = Ok res /\
    lookup2 (metrics res) pname "unknown" <> None /\
    ((forall r, In r l2 ->
                writes names (prefix_dict prows) r pname "unknown" = false) ->
     lookup2 (metrics res) pname "unknown" = Some (convert_value (item row 3))).
Proof.
  intros Hl Hn Hp Hnone.
  assert (Hnames : row_names names row = ("", "unknown")).
  { unfold row_names, dict_get_default. now rewrite Hn. }
  assert (Hkey : row_key names row = "unknown").
  { unfold row_key. rewrite Hnames. reflexivity. }
  assert (Hpre : row_prefix (prefix_dict prows) row = Some pname).
  { unfold row_prefix. now rewrite Hp, Hnone. }
  assert (Hw : writes names (prefix_dict prows) row pname "unknown" = true).
  { unfold writes. rewrite Hpre, key_eq_refl, Hkey. reflexivity. }
  split; [exact Hnames|]. split.
  - intros m inner Hm. rewrite values_loop_body_spec, Hpre, Hm, Hkey. reflexivity.
  - destruct (build_resolved_metrics_spec _ _ _ _ _ Hl)
      as (res & Hb & _ & _ & Hlk & _).
    exists res. split; [exact Hb|]. split.
    + rewrite Hlk. apply last_write_present. right. exists row.
      split; [|exact Hw]. apply in_or_app. right. now left.
    + intros Hlast. rewrite Hlk, last_write_app. simpl. rewrite Hw.
      now apply last_write_untouched.
Qed.

(** A run of amended C5: name identifier 7 is unknown, the value 5 lands
    under ["unknown"]. *)
Lemma unknown_name_sentinel_witness :
  exists res,
    build_resolved_metrics (builtins := ascii_builtins)
      (stats_db [] [[PyInt 10; PyStr "roi"]]
                ([] ++ [PyInt 10; PyInt 7; PyInt 0; PyInt 5] :: [])) = Ok res /\
    lookup2 (metrics res) (PyStr "roi") "unknown" <> None.
Proof.
  destruct (unknown_name_sentinel (builtins := ascii_builtins)
              (stats_db [] [[PyInt 10; PyStr "roi"]]
                        ([] ++ [PyInt 10; PyInt 7; PyInt 0; PyInt 5] :: []))
              [] [] [[PyInt 10; PyStr "roi"]] [] []
              [PyInt 10; PyInt 7; PyInt 0; PyInt 5] (PyStr "roi"))
    as (_ & _ & res & Hb & Hk & _).
  - repeat split; reflexivity.
  - reflexivity.
  - reflexivity.
  - reflexivity.
  - exists res. split; [exact Hb | exact Hk].
Defined.

(** C6. Every prefix name, of a prefix row or held by the prefix
    dictionary, is a key of the [metrics] mapping of the output; when no
    value row is stored under that prefix name, it maps to the empty
    mapping. *)
Theorem every_prefix_has_entry {builtins : PyBuiltins} (cursor : database)
    (nrows : list (list pyval)) (names : dict (string * string))
    (prows vrows : list (list pyval)) :
  loaded cursor nrows names prows vrows ->
  exists res,
    build_resolved_metrics cursor = Ok res /\
    forall pname,
      ((exists prow, In prow prows /\ item prow 1 = pname) \/
       (exists pid, dict_get (prefix_dict prows) pid = Some pname)) ->
      exists inner,
        dict_get (metrics res) pname = Some inner /\
        ((forall row p, In row vrows ->
                        row_prefix (prefix_dict prows) row = Some p ->
                        key_eq p pname = false) ->
         inner = []).
Proof.
  intros Hl.
  destruct (build_resolved_metrics_spec _ _ _ _ _ Hl)
    as (res & Hb & Hpre & Hkeys & _ & Hun).
  exists res. split; [exact Hb|]. intros pname Hp.
  assert (Hrow : exists prow, In prow prows /\ item prow 1 = pname).
  { destruct Hp as [Hp | (pid & Hp)]; [exact Hp|].
    apply prefix_dict_names in Hp. destruct Hp as (r & Hin & Hn & _). now exists r. }
  destruct Hrow as (prow & Hin & Hn).
  assert (Hmem : existsb (fun q => key_eq q pname) (prefixes res) = true).
  { rewrite Hpre. apply existsb_exists. exists pname. split.
    - apply in_map_iff. now exists prow.
    - apply key_eq_refl. }
  assert (Hsome : dict_get (metrics res) pname <> None).
  { apply dict_get_in_keys. rewrite Hkeys. now apply first_occurrences_mem. }
  destruct (dict_get (metrics res) pname) as [inner|] eqn:E; [|congruence].
  exists inner. split; [reflexivity|]. intros Hno.
  specialize (Hun pname Hno). rewrite Hmem, E in Hun. congruence.
Qed.

(** A run of C6: prefix ["idle"] has no value row and maps to the empty
    mapping. *)
Lemma every_prefix_has_entry_witness :
  exists res,
    build_resolved_metrics (builtins := ascii_builtins)
      (stats_db [[PyInt 1; PyStr "thread"; PyStr "time"]]
                [[PyInt 10; PyStr "roi"]; [PyInt 20; PyStr "idle"]]
                [[PyInt 10; PyInt 1; PyInt 0; PyInt 4]]) = Ok res /\
    dict_get (metrics res) (PyStr "idle") = Some [].
Proof.
  destruct (every_prefix_has_entry (builtins := ascii_builtins)
              (stats_db [[PyInt 1; PyStr "thread"; PyStr "time"]]
                        [[PyInt 10; PyStr "roi"]; [PyInt 20; PyStr "idle"]]
                        [[PyInt 10; PyInt 1; PyInt 0; PyInt 4]])
              [[PyInt 1; PyStr "thread"; PyStr "time"]]
              [(PyInt 1, ("thread", "time"))]
              [[PyInt 10; PyStr "roi"]; [PyInt 20; PyStr "idle"]]
              [[PyInt 10; PyInt 1; PyInt 0; PyInt 4]])
    as (res & Hb & Hall).
  - repeat split; reflexivity.
  - exists res. split; [exact Hb|].
    destruct (Hall (PyStr "idle")) as (inner & Hg & He).
    + left. exists [PyInt 20; PyStr "idle"]. split; [right; now left | reflexivity].
    + rewrite Hg. f_equal. apply He.
      intros row p [<- | []] Hp. vm_compute in Hp. injection Hp as <-. reflexivity.
Defined.

(** C7. The [prefixes] list of the output holds the prefix names in the
    order of the prefix rows sorted ascending on their identifier (the
    order of [ORDER BY], which on integers is their usual order), each row
    of the table once; the keys of [metrics] follow the same order. *)
Theorem prefixes_in_identifier_order {builtins : PyBuiltins} (cursor : database)
    (nrows : list (list pyval)) (names : dict (string * string))
    (prows vrows : list (list pyval)) :
  loaded cursor nrows names prows vrows ->
  exists res t i j,
    build_resolved_metrics cursor = Ok res /\
    find_table cursor "prefixes" = Some t /\
    column_index (tbl_columns t) "prefixid" = Some i /\
    column_index (tbl_columns t) "prefixname" = Some j /\
    Permutation prows (map (project [i; j]) (tbl_rows t)) /\
    StronglySorted id_le prows /\
    (forall a b x y, id_le [PyInt a; x] [PyInt b; y] <-> a <= b) /\
    prefixes res = map (fun r => item r 1) prows /\
    dict_keys (metrics res) = first_occurrences (prefixes res).
Proof.
  intros Hl.
  destruct (build_resolved_metrics_spec _ _ _ _ _ Hl) as (res & Hb & Hpre & Hkeys & _).
  destruct Hl as (_ & _ & Hp & _).
  destruct (select_prefixes_inv _ _ Hp) as (t & i & j & Ht & Hi & Hj & ->).
  exists res, t, i, j. repeat split; try assumption.
  - apply Permutation_map, order_by_perm.
  - apply project_sorted, order_by_sorted.
  - unfold id_le, key_le, item. simpl. rewrite sqlite_leb_int. apply Z.leb_le.
  - unfold id_le, key_le, item. simpl. rewrite sqlite_leb_int. apply Z.leb_le.
Qed.

(** A run of C7: the table stores prefix 20 before prefix 10; the output
    lists ["roi"] (10) before ["idle"] (20). *)
Lemma prefixes_in_identifier_order_witness :
  exists res,
    build_resolved_metrics (builtins := ascii_builtins)
      (stats_db [] [[PyInt 20; PyStr "idle"]; [PyInt 10; PyStr "roi"]] []) = Ok res /\
    prefixes res = [PyStr "roi"; PyStr "idle"].
Proof.
  destruct (prefixes_in_identifier_order (builtins := ascii_builtins)
              (stats_db [] [[PyInt 20; PyStr "idle"]; [PyInt 10; PyStr "roi"]] [])
              [] [] [[PyInt 10; PyStr "roi"]; [PyInt 20; PyStr "idle"]] [])
    as (res & t & i & j & Hb & _ & _ & _ & _ & _ & _ & Hp & _).
  - repeat split; reflexivity.
  - exists res. split; [exact Hb | exact Hp].
Defined.

(** C8, as stated, fails, for absent tables and for malformed ones.
    Absent: in a database without any table every table the resolver needs
    is absent, and the resolver itself would fail on it, yet the export
    skips the resolver ([if get_all_tables(cursor)]) and the document
    carries neither a ['prefixes'] nor a ['metrics'] key. Malformed: a
    names table whose object name column is declared INTEGER and holds the
    number 7 makes [(row[1] or '').strip()] raise [AttributeError], and a
    names table whose pages are damaged makes the names query raise
    [sqlite3.DatabaseError]; [except sqlite3.OperationalError] catches
    neither, and the export aborts, without raw tables too. *)
Lemma absent_or_malformed_tables_not_empty_result :
  (build_resolved_metrics (builtins := ascii_builtins) [] = Raise OperationalError /\
   export_database (builtins := ascii_builtins) [] "sim.stats.sqlite3" "json" false
   = Ok [(PyStr "database", FPath "sim.stats.sqlite3")] /\
   dict_get [(PyStr "database", FPath "sim.stats.sqlite3")] (PyStr "prefixes") = None /\
   dict_get [(PyStr "database", FPath "sim.stats.sqlite3")] (PyStr "metrics") = None) /\
  export_database (builtins := ascii_builtins)
    [ {| tbl_name := "names";
         tbl_columns := [column "nameid" "INTEGER"; column "objectname" "INTEGER";
                         column "metricname" "TEXT"];
         tbl_rows := [[PyInt 1; PyInt 7; PyStr "time"]];
         tbl_damaged := false |};
      prefixes_table [[PyInt 10; PyStr "roi"]];
      values_table [] ]
    "sim.stats.sqlite3" "json" false = Raise AttributeError /\
  export_database (builtins := ascii_builtins)
    [ {| tbl_name := "names";
         tbl_columns := [column "nameid" "INTEGER"; column "objectname" "TEXT";
                         column "metricname" "TEXT"];
         tbl_rows := [[PyInt 1; PyStr "thread"; PyStr "time"]];
         tbl_damaged := true |};
      prefixes_table [[PyInt 10; PyStr "roi"]];
      values_table [] ]
    "sim.stats.sqlite3" "json" false = Raise DatabaseError.
Proof. repeat split; vm_compute; reflexivity. Qed.

(** C8, amended. When the database has at least one table and the first
    thing that goes wrong in the resolver is a query that fails on a missing
    table or column (the names query, or, once the names are fetched and
    trimmed, the prefixes query, or, once the prefixes are fetched, the
    values query), the resolver raises [sqlite3.OperationalError] and the
    export does not abort on it: without the raw tables the document is
    the path followed by ['metrics'] equal to the empty mapping and
    ['prefixes'] equal to the empty list. With the raw tables, every
    document the export returns has the two entries too, and it returns one
    when every table can be dumped. *)
Theorem missing_tables_give_empty_result {builtins : PyBuiltins}
    (cursor : database) (sqlite_file format_type : string)
    (include_raw_tables : bool) :
  cursor <> [] ->
  required_missing cursor ->
  build_resolved_metrics cursor = Raise OperationalError /\
  export_database cursor sqlite_file format_type false
  = Ok [(PyStr "database", FPath sqlite_file);
        (PyStr "metrics", FMetrics []);
        (PyStr "prefixes", FPrefixes [])] /\
  (forall doc,
     export_database cursor sqlite_file format_type include_raw_tables = Ok doc ->
     dict_get doc (PyStr "prefixes") = Some (FPrefixes []) /\
     dict_get doc (PyStr "metrics") = Some (FMetrics [])) /\
  (dumpable cursor ->
   exists doc,
     export_database cursor sqlite_file format_type include_raw_tables = Ok doc).
Proof.
  intros Hne Hmiss. pose proof (required_missing_raises cursor Hmiss) as Hb.
  split; [exact Hb|].
  unfold export_database. rewrite Hb.
  destruct cursor as [|t cursor]; [congruence|].
  cbn [get_all_tables map bind].
  split; [reflexivity|].
  destruct include_raw_tables.
  - split.
    + intros doc.
      destruct (for_each (raw_table_body (t :: cursor))
                         (tbl_name t :: map tbl_name cursor) [])
        as [tables|e]; cbn [bind]; [|discriminate].
      intros [= <-]. split; reflexivity.
    + intros Hd.
      destruct (raw_tables_total (t :: cursor) (get_all_tables (t :: cursor)) []
                  Hd (fun _ H => H)) as (tables & Ht).
      cbn [get_all_tables map] in Ht. rewrite Ht. cbn [bind].
      eexists. reflexivity.
  - split.
    + intros doc [= <-]. split; reflexivity.
    + intros _. eexists. reflexivity.
Qed.

(** A run of amended C8: a database with the names table only, exported
    with its raw tables. *)
Lemma missing_tables_give_empty_result_witness :
  export_database (builtins := ascii_builtins)
    [names_table [[PyInt 1; PyStr "thread"; PyStr "time"]]]
    "sim.stats.sqlite3" "json" false
  = Ok [(PyStr "database", FPath "sim.stats.sqlite3");
        (PyStr "metrics", FMetrics []);
        (PyStr "prefixes", FPrefixes [])] /\
  exists doc,
    export_database (builtins := ascii_builtins)
      [names_table [[PyInt 1; PyStr "thread"; PyStr "time"]]]
      "sim.stats.sqlite3" "json" true = Ok doc /\
    dict_get doc (PyStr "prefixes") = Some (FPrefixes []) /\
    dict_get doc (PyStr "metrics") = Some (FMetrics []).
Proof.
  destruct (missing_tables_give_empty_result (builtins := ascii_builtins)
              [names_table [[PyInt 1; PyStr "thread"; PyStr "time"]]]
              "sim.stats.sqlite3" "json" true)
    as (_ & Hdoc & Hkeys & Hret).
  - discriminate.
  - right. exists [[PyInt 1; PyStr "thread"; PyStr "time"]],
                  [(PyInt 1, ("thread", "time"))].
    repeat split; try reflexivity. left. reflexivity.
  - split; [exact Hdoc|].
    destruct Hret as (doc & Hd).
    + repeat constructor.
    + exists doc. split; [exact Hd | exact (Hkeys doc Hd)].
Defined.

(** C9. The code departs from what it documents. The docstring of
    [build_resolved_metrics] and the comment above the initialisation of
    [metrics] give the key as ["objectname.metricname[core]"]
    ([docstring_key]), and the specification has the core index folded into
    the key; the loop binds [core] and never uses it. The rows of core 0
    and of core 1 for the same prefix and name are stored under the one key
    ["thread.time"], which is neither of the documented keys
    ["thread.time[0]"] and ["thread.time[1]"], and the second row overwrites
    the first: the value 5 of core 0 is not in the output. *)
Lemma core_index_not_in_key :
  row_key (builtins := ascii_builtins) [(PyInt 1, ("thread", "time"))]
          [PyInt 10; PyInt 1; PyInt 0; PyInt 5]
  = row_key (builtins := ascii_builtins) [(PyInt 1, ("thread", "time"))]
            [PyInt 10; PyInt 1; PyInt 1; PyInt 7] /\
  docstring_key (builtins := ascii_builtins) "thread" "time" (PyInt 0)
  = "thread.time[0]" /\
  docstring_key (builtins := ascii_builtins) "thread" "time" (PyInt 1)
  = "thread.time[1]" /\
  build_resolved_metrics (builtins := ascii_builtins)
    (stats_db [[PyInt 1; PyStr "thread"; PyStr "time"]]
              [[PyInt 10; PyStr "roi"]]
              [[PyInt 10; PyInt 1; PyInt 0; PyInt 5];
               [PyInt 10; PyInt 1; PyInt 1; PyInt 7]])
  = Ok {| prefixes := [PyStr "roi"];
          metrics := [(PyStr "roi", [(PyStr "thread.time", PyInt 7)])] |}.
Proof. repeat split; vm_compute; reflexivity. Qed.

(** The key under which a value row is stored does not depend on the row's
    core column: two rows that agree on the prefix identifier, the name
    identifier and the value have the same key and the same effect on
    [metrics], whatever their core cells. A core index is in the key only
    when the metric name of the names table spells it. *)
Lemma key_ignores_core {builtins : PyBuiltins} (names : dict (string * string))
    (p2n : dict pyval) (m : dict (dict pyval)) (row row' : list pyval) :
  item row 0 = item row' 0 ->
  item row 1 = item row' 1 ->
  item row 3 = item row' 3 ->
  row_key names row = row_key names row' /\
  values_loop_body names p2n m row = values_loop_body names p2n m row'.
Proof.
  intros H0 H1 H3. split.
  - unfold row_key, row_names. now rewrite H1.
  - unfold values_loop_body. now rewrite H0, H1, H3.
Qed.

(** Cores 0 and 3 of one metric share their key. *)
Lemma key_ignores_core_cores_0_3 :
  row_key (builtins := ascii_builtins) [(PyInt 1, ("thread", "time"))]
          [PyInt 10; PyInt 1; PyInt 0; PyInt 5]
  = row_key (builtins := ascii_builtins) [(PyInt 1, ("thread", "time"))]
            [PyInt 10; PyInt 1; PyInt 3; PyInt 5].
Proof.
  refine (proj1 (key_ignores_core (builtins := ascii_builtins)
                   [(PyInt 1, ("thread", "time"))] [] []
                   [PyInt 10; PyInt 1; PyInt 0; PyInt 5]
                   [PyInt 10; PyInt 1; PyInt 3; PyInt 5] _ _ _)); reflexivity.
Qed.

(** C10. For a value row whose name identifier is not in the names
    dictionary the composed key is exactly ["unknown"], never empty. The
    loop body stores a row under the fallback key "nameid_" + identifier
    exactly when the key composed from its names is empty, and that
    happens only for an identifier that is in the dictionary with both
    names empty, which a names row with that identifier and blank object
    and metric cells put there. *)
Theorem fallback_only_for_blank_names {builtins : PyBuiltins}
    (nrows : list (list pyval)) (names : dict (string * string))
    (row : list pyval) :
  for_each names_loop_body nrows [] = Ok names ->
  let nameid := convert_value (item row 1) in
  let composed := base_key (fst (row_names names row)) (snd (row_names names row)) in
  (dict_get names nameid = None ->
   composed = "unknown" /\ row_key names row = "unknown") /\
  (forall p2n m pname inner,
      row_prefix p2n row = Some pname ->
      dict_get m pname = Some inner ->
      values_loop_body names p2n m row
      = Ok (dict_set m pname
              (dict_set inner
                 (PyStr (if (composed =? "")%string
                         then ("nameid_" ++ py_str nameid)%string
                         else composed))
                 (convert_value (item row 3))))) /\
  (composed = "" ->
   dict_get names nameid = Some ("", "") /\
   exists nrow,
     In nrow nrows /\
     key_eq (convert_value (item nrow 0)) nameid = true /\
     blank_cell (item nrow 1) /\ blank_cell (item nrow 2)).
Proof.
  intros Hloop nameid composed. split; [|split].
  - intros Hn. unfold composed, row_key, row_names, dict_get_default.
    fold nameid. rewrite Hn. split; reflexivity.
  - intros p2n m pname inner Hp Hm.
    rewrite values_loop_body_spec, Hp, Hm. reflexivity.
  - intros Hc. unfold composed in Hc. apply base_key_empty in Hc.
    destruct Hc as [Ho Hm]. unfold row_names, dict_get_default in Ho, Hm.
    fold nameid in Ho, Hm.
    destruct (dict_get names nameid) as [[o m]|] eqn:Hget; simpl in Ho, Hm;
      [|discriminate].
    subst o m. split; [reflexivity|].
    destruct (names_loop_entry _ _ _ _ _ _ Hloop Hget)
      as [H | (nrow & Hin & Hk & Hbo & Hbm)]; [discriminate|].
    exists nrow. repeat split; auto.
Qed.

(** A run of C10: the names row (1, "  ", NULL) is blank in both cells,
    and identifier 1 is stored with two empty names. *)
Lemma fallback_only_for_blank_names_witness :
  dict_get [(PyInt 1, ("", ""))]
           (convert_value (builtins := ascii_builtins)
                          (item [PyInt 10; PyInt 1; PyInt 0; PyInt 5] 1))
  = Some ("", "") /\
  exists nrow,
    In nrow [[PyInt 1; PyStr "  "; PyNone]] /\
    key_eq (convert_value (builtins := ascii_builtins) (item nrow 0))
           (convert_value (builtins := ascii_builtins)
                          (item [PyInt 10; PyInt 1; PyInt 0; PyInt 5] 1)) = true /\
    blank_cell (builtins := ascii_builtins) (item nrow 1) /\
    blank_cell (builtins := ascii_builtins) (item nrow 2).
Proof.
  refine (proj2 (proj2 (fallback_only_for_blank_names (builtins := ascii_builtins)
                   [[PyInt 1; PyStr "  "; PyNone]] [(PyInt 1, ("", ""))]
                   [PyInt 10; PyInt 1; PyInt 0; PyInt 5] _)) _); reflexivity.
Defined.

(** ** Further properties of the script *)

From Stdlib Require Import SetoidList.

(** *** [convert_value] *)

(** X1. [convert_value] never returns bytes, returns [None] for [None]
    only, and leaves numbers as they are. Text that holds a decimal
    separator never becomes an integer, and text that holds none never
    becomes a float (["1e5"] stays text). *)
Theorem convert_value_kinds {builtins : PyBuiltins} (v : pyval) :
  (forall b, convert_value v <> PyBytes b) /\
  (convert_value v = PyNone <-> v = PyNone) /\
  (forall z, v = PyInt z -> convert_value v = PyInt z) /\
  (forall f, v = PyFloat f -> convert_value v = PyFloat f) /\
  (forall s z, v = PyStr s -> contains_dot s = true -> convert_value v <> PyInt z) /\
  (forall s f, v = PyStr s -> contains_dot s = false -> convert_value v <> PyFloat f).
Proof.
  split; [|split; [split|split; [|split; [|split]]]].
  - intros b. destruct v as [| | |s|]; simpl; try discriminate.
    destruct (contains_dot s);
      [destruct (float_of_str s) | destruct (int_of_str s)]; discriminate.
  - destruct v as [| | |s|]; simpl; try discriminate; try reflexivity.
    destruct (contains_dot s);
      [destruct (float_of_str s) | destruct (int_of_str s)]; discriminate.
  - now intros ->.
  - now intros z ->.
  - now intros f ->.
  - intros s z -> Hd. simpl. rewrite Hd. destruct (float_of_str s); discriminate.
  - intros s f -> Hd. simpl. rewrite Hd. destruct (int_of_str s); discriminate.
Qed.

(** X2. Converting a converted value changes nothing, as long as [int] and
    [float] refuse the text [b'...'] that [str] makes of bytes (they do:
    it starts with the letter b). *)
Theorem convert_value_idempotent {builtins : PyBuiltins} (v : pyval) :
  (forall b, v = PyBytes b ->
             int_of_str (bytes_repr b) = None /\
             float_of_str (bytes_repr b) = None) ->
  convert_value (convert_value v) = convert_value v.
Proof.
  intros Hb. destruct v as [| | |s|b]; try reflexivity.
  - simpl. destruct (contains_dot s) eqn:Hd.
    + destruct (float_of_str s) eqn:Hf; simpl; [reflexivity|].
      now rewrite Hd, Hf.
    + destruct (int_of_str s) eqn:Hi; simpl; [reflexivity|].
      now rewrite Hd, Hi.
  - destruct (Hb b eq_refl) as [Hi Hf].
    cbn [convert_value py_str]. rewrite Hi, Hf.
    now destruct (contains_dot (bytes_repr b)).
Qed.

(** A run of X2 on the blob [b'4.5']. *)
Lemma convert_value_idempotent_witness :
  convert_value (builtins := ascii_builtins)
    (convert_value (builtins := ascii_builtins)
                   (PyBytes (list_byte_of_string "4.5")))
  = convert_value (builtins := ascii_builtins) (PyBytes (list_byte_of_string "4.5")).
Proof.
  apply (convert_value_idempotent (builtins := ascii_builtins)).
  intros b [= <-]. split; reflexivity.
Defined.

(** *** The exceptions of the resolver *)

(** A names cell on which [.strip()] fails: a number other than zero. *)
Definition nonzero_number (c : pyval) : bool :=
  match c with
  | PyInt z => negb (z =? 0)
  | PyFloat f => negb (float_is_zero f)
  | _ => false
  end.

Definition untrimmable (row : list pyval) : bool :=
  nonzero_number (item row 1) || nonzero_number (item row 2).

(** What a names cell becomes before [str] is applied: NULL gives [''],
    text is stripped, a non-empty blob is stripped as bytes, and an empty or
    zero cell is replaced by [''] and stripped. *)
Definition trimmed_cell {builtins : PyBuiltins} (c : pyval) : pyval :=
  match c with
  | PyNone => PyStr ""
  | PyStr s => PyStr (str_strip s)
  | PyBytes (x :: b) => PyBytes (bytes_strip (x :: b))
  | _ => PyStr (str_strip "")
  end.

Lemma name_cell_result {builtins : PyBuiltins} (c : pyval) :
  (if negb (is_none c) then method_strip (py_or c (PyStr "")) else Ok (PyStr ""))
  = if nonzero_number c then Raise AttributeError else Ok (trimmed_cell c).
Proof.
  destruct c as [|z|f|s|b]; unfold py_or;
    cbn [is_none negb truthy nonzero_number trimmed_cell].
  - reflexivity.
  - destruct (z =? 0); reflexivity.
  - destruct (float_is_zero f); reflexivity.
  - destruct (String.eqb_spec s "") as [->|]; reflexivity.
  - destruct b; reflexivity.
Qed.

(** One names row: it fails on an untrimmable cell and otherwise files the
    trimmed names under the converted identifier. *)
Lemma names_loop_body_result {builtins : PyBuiltins}
    (names : dict (string * string)) (row : list pyval) :
  names_loop_body names row =
  if untrimmable row then Raise AttributeError
  else Ok (dict_set names (convert_value (item row 0))
                    (py_str (trimmed_cell (item row 1)),
                     py_str (trimmed_cell (item row 2)))).
Proof.
  unfold untrimmable, names_loop_body. rewrite !name_cell_result.
  destruct (nonzero_number (item row 1)); [reflexivity|].
  destruct (nonzero_number (item row 2)); reflexivity.
Qed.

Lemma names_loop_result {builtins : PyBuiltins} (nrows : list (list pyval)) :
  forall acc : dict (string * string),
    if existsb untrimmable nrows
    then for_each names_loop_body nrows acc = Raise AttributeError
    else exists names, for_each names_loop_body nrows acc = Ok names.
Proof.
  induction nrows as [|r nrows IH]; intros acc; simpl.
  - now exists acc.
  - rewrite names_loop_body_result.
    destruct (untrimmable r); simpl; [reflexivity | apply IH].
Qed.

(** The resolver step by step: which query or loop decides its outcome. An
    exception of a query leaves the resolver as it is. *)
Lemma build_resolved_metrics_cases {builtins : PyBuiltins} (cursor : database) :
  match execute_select cursor ["nameid"; "objectname"; "metricname"] "names" None with
  | Raise e => build_resolved_metrics cursor = Raise e
  | Ok nrows =>
      if existsb untrimmable nrows
      then build_resolved_metrics cursor = Raise AttributeError
      else
        match execute_select cursor ["prefixid"; "prefixname"] "prefixes"
                             (Some "prefixid") with
        | Raise e => build_resolved_metrics cursor = Raise e
        | Ok _ =>
            match execute_select cursor ["prefixid"; "nameid"; "core"; "value"]
                                 "values" None with
            | Raise e => build_resolved_metrics cursor = Raise e
            | Ok _ => exists res, build_resolved_metrics cursor = Ok res
            end
        end
  end.
Proof.
  destruct (execute_select cursor ["nameid"; "objectname"; "metricname"] "names" None)
    as [nrows|e] eqn:Hn.
  - pose proof (names_loop_result nrows []) as Hloop.
    destruct (existsb untrimmable nrows).
    + unfold build_resolved_metrics. rewrite Hn. simpl. now rewrite Hloop.
    + destruct Hloop as (names & Hnames).
      destruct (execute_select cursor ["prefixid"; "prefixname"] "prefixes"
                               (Some "prefixid")) as [prows|e] eqn:Hp.
      * destruct (execute_select cursor ["prefixid"; "nameid"; "core"; "value"]
                                 "values" None) as [vrows|e] eqn:Hv.
        -- destruct (build_resolved_metrics_spec cursor nrows names prows vrows)
             as (res & Hb & _); [now repeat split|]. now exists res.
        -- unfold build_resolved_metrics. rewrite Hn. simpl. rewrite Hnames. simpl.
           rewrite Hp. simpl.
           destruct (fold_left prefixes_loop_body prows ([], [])) as [ps p2n].
           rewrite Hv. reflexivity.
      * unfold build_resolved_metrics. rewrite Hn. simpl. rewrite Hnames. simpl.
        rewrite Hp. reflexivity.
  - unfold build_resolved_metrics. rewrite Hn. reflexivity.
Qed.

(** The resolver never raises [KeyError]. *)
Lemma build_resolved_metrics_no_key_error {builtins : PyBuiltins}
    (cursor : database) :
  build_resolved_metrics cursor <> Raise KeyError.
Proof.
  pose proof (build_resolved_metrics_cases cursor) as H. intros Hk.
  destruct (execute_select cursor ["nameid"; "objectname"; "metricname"] "names" None)
    as [nrows|e0] eqn:Hn.
  - destruct (existsb untrimmable nrows); [congruence|].
    destruct (execute_select cursor ["prefixid"; "prefixname"] "prefixes"
                             (Some "prefixid")) as [prows|e1] eqn:Hp;
      [destruct (execute_select cursor ["prefixid"; "nameid"; "core"; "value"]
                                "values" None) as [vrows|e2] eqn:Hv|].
    + destruct H as (res & H). congruence.
    + assert (e2 = KeyError) by congruence. subst e2.
      destruct (execute_select_raises _ _ _ _ _ Hv); discriminate.
    + assert (e1 = KeyError) by congruence. subst e1.
      destruct (execute_select_raises _ _ _ _ _ Hp); discriminate.
  - assert (e0 = KeyError) by congruence. subst e0.
    destruct (execute_select_raises _ _ _ _ _ Hn); discriminate.
Qed.

(** A result of the resolver means that the three queries succeeded and
    the names loop went through. *)
Lemma build_resolved_metrics_ok_inv {builtins : PyBuiltins} (cursor : database)
    (res : resolved) :
  build_resolved_metrics cursor = Ok res ->
  exists nrows names prows vrows,
    loaded cursor nrows names prows vrows /\ existsb untrimmable nrows = false.
Proof.
  pose proof (build_resolved_metrics_cases cursor) as H. intros Hb.
  destruct (execute_select cursor ["nameid"; "objectname"; "metricname"] "names" None)
    as [nrows|e0] eqn:Hn; [|congruence].
  pose proof (names_loop_result nrows []) as Hnames.
  destruct (existsb untrimmable nrows) eqn:Hbad; [congruence|].
  destruct Hnames as (names & Hnames).
  destruct (execute_select cursor ["prefixid"; "prefixname"] "prefixes"
                           (Some "prefixid")) as [prows|e1] eqn:Hp; [|congruence].
  destruct (execute_select cursor ["prefixid"; "nameid"; "core"; "value"]
                           "values" None) as [vrows|e2] eqn:Hv; [|congruence].
  exists nrows, names, prows, vrows. now repeat split.
Qed.

(** X3. The resolver raises [AttributeError] exactly when the names are
    fetched and some names row holds a number other than zero in its object
    or metric cell ([(row[1] or '').strip()] on an [int] or a [float]); it
    returns a result exactly when the three queries succeed and no names row
    is like that. It never raises [KeyError]: [metrics[pname]] at line 108
    always finds its key, since [metrics] was given an entry for every prefix
    name. *)
Theorem resolver_outcomes {builtins : PyBuiltins} (cursor : database) :
  build_resolved_metrics cursor <> Raise KeyError /\
  (build_resolved_metrics cursor = Raise AttributeError <->
   exists nrows,
     execute_select cursor ["nameid"; "objectname"; "metricname"] "names" None
       = Ok nrows /\
     existsb untrimmable nrows = true) /\
  ((exists res, build_resolved_metrics cursor = Ok res) <->
   exists nrows prows vrows,
     execute_select cursor ["nameid"; "objectname"; "metricname"] "names" None
       = Ok nrows /\
     existsb untrimmable nrows = false /\
     execute_select cursor ["prefixid"; "prefixname"] "prefixes" (Some "prefixid")
       = Ok prows /\
     execute_select cursor ["prefixid"; "nameid"; "core"; "value"] "values" None
       = Ok vrows).
Proof.
  split; [apply build_resolved_metrics_no_key_error|].
  pose proof (build_resolved_metrics_cases cursor) as H.
  destruct (execute_select cursor ["nameid"; "objectname"; "metricname"] "names" None)
    as [nrows|e0] eqn:Hn.
  - destruct (existsb untrimmable nrows) eqn:Hbad.
    + rewrite H. split.
      * split; [intros _; now exists nrows | reflexivity].
      * split; [intros (res & Hr); discriminate|].
        intros (n & p & v & [= <-] & Hf & _). congruence.
    + destruct (execute_select cursor ["prefixid"; "prefixname"] "prefixes"
                               (Some "prefixid")) as [prows|e1] eqn:Hp;
        [destruct (execute_select cursor ["prefixid"; "nameid"; "core"; "value"]
                                  "values" None) as [vrows|e2] eqn:Hv|].
      * destruct H as (res & H). rewrite H. split.
        -- split; [discriminate|]. intros (n & [= <-] & Ht). congruence.
        -- split; [intros _; exists nrows, prows, vrows; now repeat split|].
           intros _. now exists res.
      * rewrite H. split.
        -- split; [|intros (n & [= <-] & Ht); congruence].
           intros [= ->]. destruct (execute_select_raises _ _ _ _ _ Hv); discriminate.
        -- split; [intros (res & Hr); discriminate|].
           intros (n & p & v & _ & _ & _ & Hv'). discriminate.
      * rewrite H. split.
        -- split; [|intros (n & [= <-] & Ht); congruence].
           intros [= ->]. destruct (execute_select_raises _ _ _ _ _ Hp); discriminate.
        -- split; [intros (res & Hr); discriminate|].
           intros (n & p & v & _ & _ & Hp' & _). discriminate.
  - rewrite H. split.
    + split; [|intros (n & Hn' & _); discriminate].
      intros [= ->]. destruct (execute_select_raises _ _ _ _ _ Hn); discriminate.
    + split; [intros (res & Hr); discriminate|].
      intros (n & p & v & Hn' & _). discriminate.
Qed.

(** *** The exported document *)

(** The document before the raw tables are added, written out entry by
    entry. *)
Definition document_head {builtins : PyBuiltins} (cursor : database)
    (sqlite_file : string) : result document :=
  match cursor with
  | [] => Ok [(PyStr "database", FPath sqlite_file)]
  | _ :: _ =>
      match build_resolved_metrics cursor with
      | Ok resolved =>
          Ok [(PyStr "database", FPath sqlite_file);
              (PyStr "prefixes", FPrefixes (prefixes resolved));
              (PyStr "metrics", FMetrics (metrics resolved))]
      | Raise OperationalError =>
          Ok [(PyStr "database", FPath sqlite_file);
              (PyStr "metrics", FMetrics []);
              (PyStr "prefixes", FPrefixes [])]
      | Raise e => Raise e
      end
  end.

Lemma export_database_struct {builtins : PyBuiltins} (cursor : database)
    (sqlite_file format_type : string) (include_raw_tables : bool) :
  export_database cursor sqlite_file format_type include_raw_tables =
  (head <- document_head cursor sqlite_file ;;
   if include_raw_tables then
     tables <- for_each (raw_table_body cursor) (get_all_tables cursor) [] ;;
     Ok (head ++ [(PyStr "tables", FTables tables)])
   else Ok head).
Proof.
  unfold export_database, document_head.
  destruct cursor as [|t cursor]; cbn [get_all_tables map bind].
  - destruct include_raw_tables; reflexivity.
  - destruct (build_resolved_metrics (t :: cursor)) as [res|[| | |]];
      destruct include_raw_tables; reflexivity.
Qed.



(** The export of Sniper's three tables and of a table whose name holds
    one double quote (between [we] and [ird]): the resolver returns, and
    the dump raises on the name. *)
Example export_raises_on_quoted_name :
  export_database (builtins := ascii_builtins)
    (stats_db [] [] []
       ++ [ {| tbl_name := String "w" (String "e" (String "034" "ird"));
               tbl_columns := [column "x" "INTEGER"];
               tbl_rows := [];
               tbl_damaged := false |} ])
    "sim.stats.sqlite3" "json" true
  = Raise OperationalError.
Proof. vm_compute. reflexivity. Qed.

(** X5. Every exported document starts with the key ['database'], which
    holds the path it was given. With a table in the database the next two
    keys are ['prefixes'] then ['metrics'] when the resolver returned, and
    ['metrics'] then ['prefixes'] when it failed; without any table there
    are none. The key ['tables'] comes last, and only when the raw tables
    were asked for. *)
Theorem document_layout {builtins : PyBuiltins} (cursor : database)
    (sqlite_file format_type : string) (include_raw_tables : bool)
    (doc : document) :
  export_database cursor sqlite_file format_type include_raw_tables = Ok doc ->
  dict_get doc (PyStr "database") = Some (FPath sqlite_file) /\
  dict_keys doc =
    PyStr "database"
    :: match cursor with
       | [] => []
       | _ :: _ =>
           match build_resolved_metrics cursor with
           | Ok _ => [PyStr "prefixes"; PyStr "metrics"]
           | Raise _ => [PyStr "metrics"; PyStr "prefixes"]
           end
       end
    ++ (if include_raw_tables then [PyStr "tables"] else []).
Proof.
  rewrite export_database_struct. unfold document_head.
  destruct cursor as [|t cursor].
  - cbn [bind]. destruct include_raw_tables.
    + destruct (for_each _ _ _); cbn [bind]; [|discriminate].
      intros [= <-]. split; reflexivity.
    + intros [= <-]. split; reflexivity.
  - destruct (build_resolved_metrics (t :: cursor)) as [res|[| | |]]; cbn [bind];
      try discriminate;
      (destruct include_raw_tables;
       [destruct (for_each _ _ _); cbn [bind]; [|discriminate]|];
       intros [= <-]; split; reflexivity).
Qed.

(** A run of X5 on a database with the three tables. *)
Lemma document_layout_witness :
  dict_keys
    [(PyStr "database", FPath "sim.stats.sqlite3");
     (PyStr "prefixes", FPrefixes [PyStr "roi"]);
     (PyStr "metrics", FMetrics [(PyStr "roi", [(PyStr "thread.time", PyInt 4)])])]
  = [PyStr "database"; PyStr "prefixes"; PyStr "metrics"].
Proof.
  exact (proj2 (document_layout (builtins := ascii_builtins)
                  (stats_db [[PyInt 1; PyStr "thread"; PyStr "time"]]
                            [[PyInt 10; PyStr "roi"]]
                            [[PyInt 10; PyInt 1; PyInt 0; PyInt 4]])
                  "sim.stats.sqlite3" "json" false _ eq_refl)).
Defined.

(** X6. When the database has a table and the resolver returns, the
    document without raw tables is exactly the path, the resolver's prefix
    list and the resolver's metrics, in that order. *)
Theorem resolved_document {builtins : PyBuiltins} (cursor : database)
    (sqlite_file format_type : string) (res : resolved) :
  cursor <> [] ->
  build_resolved_metrics cursor = Ok res ->
  export_database cursor sqlite_file format_type false
  = Ok [(PyStr "database", FPath sqlite_file);
        (PyStr "prefixes", FPrefixes (prefixes res));
        (PyStr "metrics", FMetrics (metrics res))].
Proof.
  intros Hne Hb. rewrite export_database_struct. unfold document_head.
  destruct cursor as [|t cursor]; [congruence|]. now rewrite Hb.
Qed.

(** A run of X6. *)
Lemma resolved_document_witness :
  export_database (builtins := ascii_builtins)
    (stats_db [[PyInt 1; PyStr "thread"; PyStr "time"]]
              [[PyInt 10; PyStr "roi"]]
              [[PyInt 10; PyInt 1; PyInt 0; PyInt 4]])
    "sim.stats.sqlite3" "json" false
  = Ok [(PyStr "database", FPath "sim.stats.sqlite3");
        (PyStr "prefixes", FPrefixes [PyStr "roi"]);
        (PyStr "metrics",
         FMetrics [(PyStr "roi", [(PyStr "thread.time", PyInt 4)])])].
Proof.
  apply (resolved_document (builtins := ascii_builtins) _ _ _
           {| prefixes := [PyStr "roi"];
              metrics := [(PyStr "roi", [(PyStr "thread.time", PyInt 4)])] |}).
  - discriminate.
  - reflexivity.
Defined.

(** X7. Asking for the raw tables only appends the ['tables'] entry:
    whenever the export with them returns a document, the export without
    them returns one too, the dump of the tables went through, and the
    document is the one exported without them followed by that entry; the
    format selector plays no part in either. *)
Theorem raw_tables_appended {builtins : PyBuiltins} (cursor : database)
    (sqlite_file format_type format_type' : string) (doc' : document) :
  export_database cursor sqlite_file format_type' true = Ok doc' ->
  exists doc tables,
    export_database cursor sqlite_file format_type false = Ok doc /\
    for_each (raw_table_body cursor) (get_all_tables cursor) [] = Ok tables /\
    doc' = doc ++ [(PyStr "tables", FTables tables)].
Proof.
  rewrite !export_database_struct.
  destruct (document_head cursor sqlite_file) as [head|]; cbn [bind];
    [|discriminate].
  destruct (for_each (raw_table_body cursor) (get_all_tables cursor) [])
    as [tables|]; cbn [bind]; [|discriminate].
  intros [= <-]. now exists head, tables.
Qed.

(** A run of X7 on a database with the names table only. *)
Lemma raw_tables_appended_witness :
  exists doc tables,
    export_database (builtins := ascii_builtins) [names_table []]
                    "sim.stats.sqlite3" "json" false = Ok doc /\
    for_each (raw_table_body (builtins := ascii_builtins) [names_table []])
             (get_all_tables [names_table []]) [] = Ok tables /\
    [(PyStr "database", FPath "sim.stats.sqlite3");
     (PyStr "metrics", FMetrics []);
     (PyStr "prefixes", FPrefixes []);
     (PyStr "tables",
      FTables [(PyStr "names",
                {| td_columns := [PyStr "nameid"; PyStr "objectname";
                                  PyStr "metricname"];
                   td_schema :=
                     [ {| se_cid := PyInt 0; se_name := PyStr "nameid";
                          se_type := PyStr "INTEGER"; se_notnull := false;
                          se_default_value := PyNone; se_pk := false |};
                       {| se_cid := PyInt 1; se_name := PyStr "objectname";
                          se_type := PyStr "TEXT"; se_notnull := false;
                          se_default_value := PyNone; se_pk := false |};
                       {| se_cid := PyInt 2; se_name := PyStr "metricname";
                          se_type := PyStr "TEXT"; se_notnull := false;
                          se_default_value := PyNone; se_pk := false |} ];
                   td_data := [];
                   td_row_count := 0 |})])]
    = doc ++ [(PyStr "tables", FTables tables)].
Proof.
  apply (raw_tables_appended (builtins := ascii_builtins) [names_table []]
           "sim.stats.sqlite3" "json" "yaml").
  vm_compute. reflexivity.
Defined.

(** *** The raw tables *)

(** The columns [PRAGMA table_info] lists. *)
Definition shown_columns (t : table) : list column_info :=
  filter (fun c => negb (col_generated c)) (tbl_columns t).

(** The entry of ['tables'] for a table whose rows can be read, written
    out: the names of its columns that are not generated, one schema entry
    for each of them numbered from 0, one dictionary per row, over all its
    columns, and the number of rows. *)
Definition table_dump_of {builtins : PyBuiltins} (t : table) : table_dump :=
  let columns := map col_name (tbl_columns t) in
  {| td_columns := map (fun c => PyStr (col_name c)) (shown_columns t);
     td_schema :=
       map (fun '(cid, c) =>
              {| se_cid := PyInt (Z.of_nat cid);
                 se_name := PyStr (col_name c);
                 se_type := PyStr (col_type c);
                 se_notnull := negb (col_notnull c =? 0);
                 se_default_value := col_default c;
                 se_pk := negb (col_pk c =? 0) |})
           (combine (seq 0 (List.length (shown_columns t))) (shown_columns t));
     td_data :=
       map (fun row =>
              fold_left (fun row_dict '(col, val) =>
                           dict_set row_dict (PyStr col) (convert_value val))
                        (combine columns (project (seq 0 (List.length columns)) row))
                        [])
           (tbl_rows t);
     td_row_count := List.length (tbl_rows t) |}.

(** The table a dump reads under a listed name, when both of its statements
    go through: the one the quoted name denotes, with rows that can be
    read. *)
Definition dump_source (cursor : database) (table_name : string) : option table :=
  match sql_quoted table_name with
  | None => None
  | Some name =>
      match find_table cursor name with
      | None => None
      | Some t => if tbl_damaged t then None else Some t
      end
  end.

Lemma map_combine_seq_snd {A B : Type} (f : A -> B) (l : list A) :
  forall start,
    map (fun p => f (snd p)) (combine (seq start (List.length l)) l) = map f l.
Proof.
  induction l as [|x l IH]; intros start; simpl; [reflexivity|].
  now rewrite IH.
Qed.

Lemma map_combine_seq_fst {A B : Type} (f : nat -> B) (l : list A) :
  forall start,
    map (fun p => f (fst p)) (combine (seq start (List.length l)) l)
    = map f (seq start (List.length l)).
Proof.
  induction l as [|x l IH]; intros start; simpl; [reflexivity|].
  now rewrite IH.
Qed.

(** One table of the dump: it is filed under the listed name when the dump
    has a source, and the dump fails otherwise. *)
Lemma raw_table_body_cases {builtins : PyBuiltins} (cursor : database)
    (tables : dict table_dump) (table_name : string) :
  match dump_source cursor table_name with
  | Some t =>
      raw_table_body cursor tables table_name
      = Ok (dict_set tables (PyStr table_name) (table_dump_of t))
  | None => exists e, raw_table_body cursor tables table_name = Raise e
  end.
Proof.
  unfold dump_source, raw_table_body, get_table_schema, export_table_data, read_rows.
  destruct (sql_quoted table_name) as [name|]; cbn [bind];
    [|now exists OperationalError].
  destruct (find_table cursor name) as [t|]; cbn [bind];
    [|now exists OperationalError].
  destruct (tbl_damaged t); cbn [bind]; [now exists DatabaseError|].
  do 2 f_equal. unfold table_dump_of. fold (shown_columns t). f_equal.
  - rewrite !map_map.
    rewrite <- (map_combine_seq_snd (fun c => PyStr (col_name c)) _ 0).
    apply map_ext. now intros [cid c].
  - rewrite map_map. apply map_ext. now intros [cid c].
  - apply length_map.
Qed.

(** When the dump loop goes through, every listed name had a source, and
    the dump of that source is filed under the name. *)
Lemma raw_tables_loop {builtins : PyBuiltins} (cursor : database)
    (tnames : list string) :
  forall acc tables : dict table_dump,
    for_each (raw_table_body cursor) tnames acc = Ok tables ->
    (forall name, In name tnames -> dump_source cursor name <> None) /\
    forall name,
      dict_get tables (PyStr name) =
      if existsb (String.eqb name) tnames
      then option_map table_dump_of (dump_source cursor name)
      else dict_get acc (PyStr name).
Proof.
  induction tnames as [|n tnames IH]; intros acc tables; simpl.
  - intros [= <-]. split; [intros name []|reflexivity].
  - pose proof (raw_table_body_cases cursor acc n) as Hn.
    destruct (dump_source cursor n) as [t|] eqn:Hs.
    + rewrite Hn. cbn [bind]. intros Hloop.
      destruct (IH _ _ Hloop) as (Hsrc & Hget). split.
      * intros name [<- | Hin]; [congruence | now apply Hsrc].
      * intros name. rewrite Hget.
        destruct (existsb (String.eqb name) tnames); [now rewrite orb_true_r|].
        rewrite orb_false_r, dict_get_set, key_eq_str, String.eqb_sym.
        destruct (String.eqb_spec name n) as [->|]; [now rewrite Hs | reflexivity].
    + destruct Hn as (e & ->). discriminate.
Qed.

(** X8. When the export with the raw tables returns a document, ['tables']
    has an entry for every table of the database, under its name. The entry
    is the dump of the table SQLite finds under the quoted name, whose rows
    could be read: as many ['data'] rows as ['row_count'] says, which is the
    number of rows of that table; in ['columns'] the names of its columns
    that are not generated, in declaration order; and a ['schema'] that
    names the same columns, numbered from 0. *)
Theorem raw_table_entries {builtins : PyBuiltins} (cursor : database)
    (sqlite_file format_type : string) (doc : document) :
  export_database cursor sqlite_file format_type true = Ok doc ->
  exists tables,
    dict_get doc (PyStr "tables") = Some (FTables tables) /\
    forall t,
      In t cursor ->
      exists name t' d,
        sql_quoted (tbl_name t) = Some name /\
        find_table cursor name = Some t' /\
        tbl_damaged t' = false /\
        dict_get tables (PyStr (tbl_name t)) = Some d /\
        td_row_count d = List.length (tbl_rows t') /\
        List.length (td_data d) = td_row_count d /\
        td_columns d
        = map (fun c => PyStr (col_name c))
              (filter (fun c => negb (col_generated c)) (tbl_columns t')) /\
        map se_name (td_schema d) = td_columns d /\
        map se_cid (td_schema d)
        = map (fun i => PyInt (Z.of_nat i)) (seq 0 (List.length (td_columns d))).
Proof.
  rewrite export_database_struct.
  destruct (document_head cursor sqlite_file) as [head|] eqn:Hh;
    cbn [bind]; [|discriminate].
  destruct (for_each (raw_table_body cursor) (get_all_tables cursor) [])
    as [tables|] eqn:Hloop; cbn [bind]; [|discriminate].
  destruct (raw_tables_loop _ _ _ _ Hloop) as (Hsrc & Hget).
  intros [= <-]. exists tables. split.
  - unfold document_head in Hh. destruct cursor as [|t0 cursor].
    + injection Hh as <-. reflexivity.
    + destruct (build_resolved_metrics (t0 :: cursor)) as [res|[| | |]];
        try discriminate; injection Hh as <-; reflexivity.
  - intros t Hin.
    assert (Hl : In (tbl_name t) (get_all_tables cursor)).
    { unfold get_all_tables. apply in_map_iff. now exists t. }
    specialize (Hsrc _ Hl). specialize (Hget (tbl_name t)).
    assert (E : existsb (String.eqb (tbl_name t)) (get_all_tables cursor) = true).
    { apply existsb_exists. exists (tbl_name t). split; [exact Hl|].
      apply String.eqb_refl. }
    rewrite E in Hget. unfold dump_source in Hsrc, Hget.
    destruct (sql_quoted (tbl_name t)) as [name|]; [|congruence].
    destruct (find_table cursor name) as [t'|] eqn:Hf; [|congruence].
    destruct (tbl_damaged t') eqn:Hdam; [congruence|].
    exists name, t', (table_dump_of t').
    split; [reflexivity|]. split; [exact Hf|]. split; [exact Hdam|].
    split; [exact Hget|].
    unfold table_dump_of. cbn [td_row_count td_data td_columns td_schema].
    fold (shown_columns t'). repeat split.
    + apply length_map.
    + rewrite !map_map.
      rewrite <- (map_combine_seq_snd (fun c => PyStr (col_name c)) _ 0).
      apply map_ext. now intros [cid c].
    + rewrite map_map, length_map.
      rewrite <- (map_combine_seq_fst (fun i => PyInt (Z.of_nat i))
                                      (shown_columns t') 0).
      apply map_ext. now intros [cid c].
Qed.

(** A run of X8: a table with one row and a generated column, which the
    rows carry and the schema leaves out. *)
Lemma raw_table_entries_witness :
  exists tables,
    dict_get
      [(PyStr "database", FPath "sim.stats.sqlite3");
       (PyStr "metrics", FMetrics []);
       (PyStr "prefixes", FPrefixes []);
       (PyStr "tables",
        FTables [(PyStr "t",
                  {| td_columns := [PyStr "a"];
                     td_schema :=
                       [ {| se_cid := PyInt 0; se_name := PyStr "a";
                            se_type := PyStr "INTEGER"; se_notnull := false;
                            se_default_value := PyNone; se_pk := false |} ];
                     td_data := [[(PyStr "a", PyInt 1); (PyStr "b", PyInt 2)]];
                     td_row_count := 1 |})])]
      (PyStr "tables") = Some (FTables tables) /\
    forall t,
      In t [ {| tbl_name := "t";
                tbl_columns :=
                  [column "a" "INTEGER";
                   {| col_name := "b"; col_type := "INTEGER"; col_notnull := 0;
                      col_default := PyNone; col_pk := 0;
                      col_generated := true |}];
                tbl_rows := [[PyInt 1; PyInt 2]];
                tbl_damaged := false |} ] ->
      exists name t' d,
        sql_quoted (tbl_name t) = Some name /\
        find_table
          [ {| tbl_name := "t";
               tbl_columns :=
                 [column "a" "INTEGER";
                  {| col_name := "b"; col_type := "INTEGER"; col_notnull := 0;
                     col_default := PyNone; col_pk := 0;
                     col_generated := true |}];
               tbl_rows := [[PyInt 1; PyInt 2]];
               tbl_damaged := false |} ] name = Some t' /\
        tbl_damaged t' = false /\
        dict_get tables (PyStr (tbl_name t)) = Some d /\
        td_row_count d = List.length (tbl_rows t') /\
        List.length (td_data d) = td_row_count d /\
        td_columns d
        = map (fun c => PyStr (col_name c))
              (filter (fun c => negb (col_generated c)) (tbl_columns t')) /\
        map se_name (td_schema d) = td_columns d /\
        map se_cid (td_schema d)
        = map (fun i => PyInt (Z.of_nat i)) (seq 0 (List.length (td_columns d))).
Proof.
  apply (raw_table_entries (builtins := ascii_builtins)
           [ {| tbl_name := "t";
                tbl_columns :=
                  [column "a" "INTEGER";
                   {| col_name := "b"; col_type := "INTEGER"; col_notnull := 0;
                      col_default := PyNone; col_pk := 0;
                      col_generated := true |}];
                tbl_rows := [[PyInt 1; PyInt 2]];
                tbl_damaged := false |} ]
           "sim.stats.sqlite3" "json").
  vm_compute. reflexivity.
Defined.

Lemma dict_set_fresh {V : Type} (d : dict V) (k : pyval) (v : V) :
  dict_get d k = None -> dict_set d k v = d ++ [(k, v)].
Proof.
  induction d as [|[k0 v0] d IH]; simpl; intros H.
  - reflexivity.
  - destruct (key_eq k0 k); [discriminate|]. now rewrite IH.
Qed.

(** Filling a dictionary with distinct new keys appends them in order. *)
Lemma row_dict_distinct {builtins : PyBuiltins} (l : list (string * pyval)) :
  forall acc : dict pyval,
    NoDup (map fst l) ->
    (forall c, In c (map fst l) -> dict_get acc (PyStr c) = None) ->
    fold_left (fun row_dict '(col, val) =>
                 dict_set row_dict (PyStr col) (convert_value val)) l acc
    = acc ++ map (fun '(col, val) => (PyStr col, convert_value val)) l.
Proof.
  induction l as [|[c v] l IH]; intros acc Hnd Hfresh; simpl.
  - now rewrite app_nil_r.
  - inversion Hnd as [|? ? Hnotin Hnd']; subst.
    rewrite IH; [| exact Hnd' |].
    + rewrite dict_set_fresh by (apply Hfresh; now left).
      now rewrite <- app_assoc.
    + intros c' Hin. rewrite dict_get_set, key_eq_str.
      destruct (String.eqb_spec c c') as [->|]; [contradiction|].
      apply Hfresh. now right.
Qed.

Lemma map_fst_combine_same_length {A B : Type} (l : list A) :
  forall l' : list B,
    List.length l = List.length l' -> map fst (combine l l') = l.
Proof.
  induction l as [|x l IH]; intros [|y l'] H; simpl in *; try discriminate;
    [reflexivity|].
  f_equal. apply IH. now injection H.
Qed.

(** X9. When the quoted table name denotes a table whose rows can be read
    and whose column names are distinct (as SQLite has them), the table is
    exported row by row, in storage order, each row as the mapping from
    every column name, generated columns included, to the converted cell of
    that column, in column order. *)
Theorem exported_rows {builtins : PyBuiltins} (cursor : database)
    (table_name name : string) (t : table) :
  sql_quoted table_name = Some name ->
  find_table cursor name = Some t ->
  tbl_damaged t = false ->
  NoDup (map col_name (tbl_columns t)) ->
  export_table_data cursor table_name
  = Ok (map (fun row =>
               map (fun '(col, val) => (PyStr col, convert_value val))
                   (combine (map col_name (tbl_columns t))
                            (map (item row) (seq 0 (List.length (tbl_columns t))))))
            (tbl_rows t)).
Proof.
  intros Hq Hf Hok Hnd. unfold export_table_data, read_rows.
  rewrite Hq, Hf, Hok. cbn [bind]. f_equal.
  apply map_ext. intros row. rewrite length_map. unfold project.
  rewrite row_dict_distinct; [reflexivity | |].
  - rewrite map_fst_combine_same_length; [exact Hnd|].
    now rewrite !length_map, length_seq.
  - reflexivity.
Qed.

(** A run of X9: one row of a table with an integer and a text column,
    the text cell converted. *)
Lemma exported_rows_witness :
  export_table_data (builtins := ascii_builtins)
    [ {| tbl_name := "marker";
         tbl_columns := [column "time" "INTEGER"; column "str" "TEXT"];
         tbl_rows := [[PyInt 5; PyStr "3.5"]];
         tbl_damaged := false |} ] "marker"
  = Ok [[(PyStr "time", PyInt 5); (PyStr "str", PyFloat 3.5%float)]].
Proof.
  refine (eq_trans
            (exported_rows (builtins := ascii_builtins)
               [ {| tbl_name := "marker";
                    tbl_columns := [column "time" "INTEGER"; column "str" "TEXT"];
                    tbl_rows := [[PyInt 5; PyStr "3.5"]];
                    tbl_damaged := false |} ]
               "marker" "marker"
               {| tbl_name := "marker";
                  tbl_columns := [column "time" "INTEGER"; column "str" "TEXT"];
                  tbl_rows := [[PyInt 5; PyStr "3.5"]];
                  tbl_damaged := false |} _ _ _ _) _).
  - reflexivity.
  - reflexivity.
  - reflexivity.
  - repeat constructor; simpl; intuition discriminate.
  - vm_compute. reflexivity.
Defined.

(** *** The names dictionary and the join *)

(** Rows with other identifiers leave an entry of the names dictionary
    alone. *)
Lemma names_loop_preserves {builtins : PyBuiltins} (nrows : list (list pyval))
    (k : pyval) :
  forall acc names : dict (string * string),
    for_each names_loop_body nrows acc = Ok names ->
    (forall r, In r nrows -> key_eq (convert_value (item r 0)) k = false) ->
    dict_get names k = dict_get acc k.
Proof.
  induction nrows as [|r nrows IH]; intros acc names Hloop Hother; simpl in Hloop.
  - now injection Hloop as <-.
  - rewrite names_loop_body_result in Hloop.
    destruct (untrimmable r); [discriminate|]. cbn [bind] in Hloop.
    rewrite (IH _ _ Hloop); [|intros r' Hin; apply Hother; now right].
    rewrite dict_get_set, (Hother r (or_introl eq_refl)). reflexivity.
Qed.

(** X10. The names of an identifier are those of the last names row that
    carries it, trimmed: text stripped of surrounding white space, NULL
    read as the empty text. A value row with that name identifier (equal
    after conversion) is stored under the key composed from these trimmed
    names. *)
Theorem names_trimmed_last_wins {builtins : PyBuiltins}
    (l1 l2 : list (list pyval)) (r : list pyval)
    (names : dict (string * string)) :
  for_each names_loop_body (l1 ++ r :: l2) [] = Ok names ->
  (forall r', In r' l2 ->
              key_eq (convert_value (item r' 0)) (convert_value (item r 0)) = false) ->
  let objectName := py_str (trimmed_cell (item r 1)) in
  let metricName := py_str (trimmed_cell (item r 2)) in
  dict_get names (convert_value (item r 0)) = Some (objectName, metricName) /\
  (forall s, item r 1 = PyStr s -> objectName = str_strip s) /\
  (item r 1 = PyNone -> objectName = "") /\
  (forall s, item r 2 = PyStr s -> metricName = str_strip s) /\
  (item r 2 = PyNone -> metricName = "") /\
  (forall p2n m vrow pname inner,
      key_eq (convert_value (item vrow 1)) (convert_value (item r 0)) = true ->
      row_prefix p2n vrow = Some pname ->
      dict_get m pname = Some inner ->
      values_loop_body names p2n m vrow
      = Ok (dict_set m pname
              (dict_set inner
                 (PyStr (spec_key objectName metricName
                                  (convert_value (item vrow 1))))
                 (convert_value (item vrow 3))))).
Proof.
  intros Hloop Hlast objectName metricName.
  rewrite for_each_app in Hloop.
  destruct (for_each names_loop_body l1 []) as [acc|] eqn:H1; cbn [bind] in Hloop;
    [|discriminate].
  simpl in Hloop. rewrite names_loop_body_result in Hloop.
  destruct (untrimmable r); [discriminate|]. cbn [bind] in Hloop.
  assert (Hget : dict_get names (convert_value (item r 0))
                 = Some (objectName, metricName)).
  { rewrite (names_loop_preserves _ _ _ _ Hloop Hlast).
    now rewrite dict_get_set, key_eq_refl. }
  split; [exact Hget|]. repeat split.
  - intros s Hs. unfold objectName. now rewrite Hs.
  - intros Hs. unfold objectName. now rewrite Hs.
  - intros s Hs. unfold metricName. now rewrite Hs.
  - intros Hs. unfold metricName. now rewrite Hs.
  - intros p2n m vrow pname inner Hk Hp Hm.
    rewrite values_loop_body_spec, Hp, Hm. unfold row_key, row_names, dict_get_default.
    now rewrite (dict_get_key_eq names _ _ Hk), Hget.
Qed.

(** A run of X10: two names rows for identifier 1; the second one, with
    blanks around its names, decides. *)
Lemma names_trimmed_last_wins_witness :
  dict_get [(PyInt 1, ("cpu", "time"))]
           (convert_value (builtins := ascii_builtins) (item [PyInt 1; PyStr " cpu "; PyStr "time "] 0))
  = Some (py_str (builtins := ascii_builtins)
                 (trimmed_cell (builtins := ascii_builtins)
                               (item [PyInt 1; PyStr " cpu "; PyStr "time "] 1)),
          py_str (builtins := ascii_builtins)
                 (trimmed_cell (builtins := ascii_builtins)
                               (item [PyInt 1; PyStr " cpu "; PyStr "time "] 2))).
Proof.
  refine (proj1 (names_trimmed_last_wins (builtins := ascii_builtins)
                   [[PyInt 1; PyStr "old"; PyStr "name"]] []
                   [PyInt 1; PyStr " cpu "; PyStr "time "]
                   [(PyInt 1, ("cpu", "time"))] _ _)).
  - reflexivity.
  - intros r' [].
Defined.

(** X11. Prefix identifiers are joined by value after conversion, not by
    how the cell spells them: two value rows whose converted prefix
    identifiers are equal as Python keys (10, 10.0, or text that converts
    to 10) and whose name and value cells agree have the same effect on
    [metrics]. *)
Theorem prefix_matched_by_value {builtins : PyBuiltins}
    (names : dict (string * string)) (p2n : dict pyval) (m : dict (dict pyval))
    (row row' : list pyval) :
  key_eq (convert_value (item row 0)) (convert_value (item row' 0)) = true ->
  item row 1 = item row' 1 ->
  item row 3 = item row' 3 ->
  values_loop_body names p2n m row = values_loop_body names p2n m row'.
Proof.
  intros H0 H1 H3. rewrite !values_loop_body_spec.
  unfold row_prefix, row_key, row_names.
  now rewrite (dict_get_key_eq p2n _ _ H0), H1, H3.
Qed.

(** A run of X11: prefix cells ["10"] and 10. *)
Lemma prefix_matched_by_value_witness :
  values_loop_body (builtins := ascii_builtins) [(PyInt 1, ("thread", "time"))]
    [(PyInt 10, PyStr "roi")] [(PyStr "roi", [])]
    [PyStr "10"; PyInt 1; PyInt 0; PyInt 4]
  = values_loop_body (builtins := ascii_builtins) [(PyInt 1, ("thread", "time"))]
      [(PyInt 10, PyStr "roi")] [(PyStr "roi", [])]
      [PyInt 10; PyInt 1; PyInt 0; PyInt 4].
Proof.
  apply (prefix_matched_by_value (builtins := ascii_builtins)); reflexivity.
Defined.

(** *** Tables the resolver does not read *)

Lemma find_table_skip (c1 c2 : database) (t : table) (name : string) :
  ident_eqb (tbl_name t) name = false ->
  find_table (c1 ++ t :: c2) name = find_table (c1 ++ c2) name.
Proof.
  intros H. unfold find_table. induction c1 as [|t1 c1 IH]; simpl.
  - now rewrite H.
  - now rewrite IH.
Qed.

Lemma execute_select_skip (c1 c2 : database) (t : table) (cols : list string)
    (name : string) (order : option string) :
  ident_eqb (tbl_name t) name = false ->
  execute_select (c1 ++ t :: c2) cols name order
  = execute_select (c1 ++ c2) cols name order.
Proof. intros H. unfold execute_select. now rewrite (find_table_skip _ _ _ _ H). Qed.

(** X12. The resolver reads the tables [names], [prefixes] and [values]
    and nothing else: a table of any other name, anywhere in the database,
    does not change what it returns or raises. *)
Theorem resolver_reads_three_tables {builtins : PyBuiltins}
    (c1 c2 : database) (t : table) :
  ident_eqb (tbl_name t) "names" = false ->
  ident_eqb (tbl_name t) "prefixes" = false ->
  ident_eqb (tbl_name t) "values" = false ->
  build_resolved_metrics (c1 ++ t :: c2) = build_resolved_metrics (c1 ++ c2).
Proof.
  intros Hn Hp Hv. unfold build_resolved_metrics.
  now rewrite !execute_select_skip by assumption.
Qed.

(** A run of X12: Sniper's [event] table put in front. *)
Lemma resolver_reads_three_tables_witness :
  build_resolved_metrics (builtins := ascii_builtins)
    ([] ++ {| tbl_name := "event"; tbl_columns := [column "event" "INTEGER"];
              tbl_rows := [[PyInt 1]]; tbl_damaged := false |}
        :: stats_db [] [[PyInt 10; PyStr "roi"]] [])
  = build_resolved_metrics (builtins := ascii_builtins)
      ([] ++ stats_db [] [[PyInt 10; PyStr "roi"]] []).
Proof.
  apply (resolver_reads_three_tables (builtins := ascii_builtins)); reflexivity.
Defined.

(** *** The shape of the output mappings *)

(** No two keys of the dictionary are equal as Python keys. *)
Definition distinct_keys {V : Type} (d : dict V) : Prop :=
  NoDupA (fun a b => key_eq a b = true) (dict_keys d).

(** Every key of the dictionary is a [str]. *)
Definition text_keys {V : Type} (d : dict V) : Prop :=
  Forall (fun k => exists s, k = PyStr s) (dict_keys d).

Lemma dict_keys_set_subset {V : Type} (d : dict V) (k k' : pyval) (v : V) :
  In k' (dict_keys (dict_set d k v)) -> In k' (dict_keys d) \/ k' = k.
Proof.
  induction d as [|[k0 v0] d IH]; simpl.
  - intros [<- | []]. now right.
  - destruct (key_eq k0 k); simpl.
    + intros H. now left.
    + intros [<- | H]; [left; now left|].
      destruct (IH H) as [H' | ->]; [left; now right | now right].
Qed.

Lemma dict_values_set_subset {V : Type} (d : dict V) (k : pyval) (v x : V) :
  In x (map snd (dict_set d k v)) -> In x (map snd d) \/ x = v.
Proof.
  induction d as [|[k0 v0] d IH]; simpl.
  - intros [<- | []]. now right.
  - destruct (key_eq k0 k); simpl.
    + intros [<- | H]; [now right | left; now right].
    + intros [<- | H]; [left; now left|].
      destruct (IH H) as [H' | ->]; [left; now right | now right].
Qed.

Lemma dict_get_in_values {V : Type} (d : dict V) (k : pyval) (v : V) :
  dict_get d k = Some v -> In v (map snd d).
Proof.
  induction d as [|[k0 v0] d IH]; simpl; [discriminate|].
  destruct (key_eq k0 k).
  - intros [= <-]. now left.
  - intros H. right. now apply IH.
Qed.

Lemma distinct_keys_set {V : Type} (d : dict V) (k : pyval) (v : V) :
  distinct_keys d -> distinct_keys (dict_set d k v).
Proof.
  unfold distinct_keys. induction d as [|[k0 v0] d IH]; simpl; intros Hnd.
  - constructor; [|constructor]. intros H. inversion H.
  - inversion Hnd as [|? ? Hnotin Hnd']; subst.
    destruct (key_eq k0 k) eqn:E; simpl.
    + now constructor.
    + constructor; [|now apply IH].
      intros H. apply InA_alt in H. destruct H as (y & Hy & Hin).
      apply dict_keys_set_subset in Hin. destruct Hin as [Hin | ->].
      * apply Hnotin. apply InA_alt. now exists y.
      * congruence.
Qed.

Lemma text_keys_set {V : Type} (d : dict V) (key : string) (v : V) :
  text_keys d -> text_keys (dict_set d (PyStr key) v).
Proof.
  unfold text_keys. rewrite !Forall_forall. intros H k Hin.
  apply dict_keys_set_subset in Hin. destruct Hin as [Hin | ->].
  - now apply H.
  - now exists key.
Qed.

(** The values loop keeps the outer keys distinct and every inner mapping
    with distinct text keys. *)
Lemma values_loop_shape {builtins : PyBuiltins} (names : dict (string * string))
    (p2n : dict pyval) (rows : list (list pyval)) :
  forall m m' : dict (dict pyval),
    for_each (values_loop_body names p2n) rows m = Ok m' ->
    distinct_keys m ->
    (forall inner, In inner (map snd m) -> distinct_keys inner /\ text_keys inner) ->
    distinct_keys m' /\
    (forall inner, In inner (map snd m') -> distinct_keys inner /\ text_keys inner).
Proof.
  induction rows as [|row rows IH]; intros m m' Hloop Hd Hin; simpl in Hloop.
  - injection Hloop as <-. now split.
  - rewrite values_loop_body_spec in Hloop.
    destruct (row_prefix p2n row) as [pname|]; cbn [bind] in Hloop;
      [|now apply (IH m)].
    destruct (dict_get m pname) as [inner|] eqn:Hm; cbn [bind] in Hloop;
      [|discriminate].
    apply (IH _ _ Hloop).
    + now apply distinct_keys_set.
    + intros x Hx. apply dict_values_set_subset in Hx.
      destruct Hx as [Hx | ->]; [now apply Hin|].
      destruct (Hin inner (dict_get_in_values _ _ _ Hm)) as [H1 H2].
      split; [now apply distinct_keys_set | now apply text_keys_set].
Qed.

Lemma init_metrics_shape (l : list pyval) :
  forall acc : dict (dict pyval),
    distinct_keys acc ->
    (forall inner, In inner (map snd acc) -> inner = []) ->
    distinct_keys (fold_left (fun metrics pname => dict_set metrics pname []) l acc) /\
    (forall inner,
        In inner (map snd (fold_left (fun metrics pname => dict_set metrics pname [])
                                     l acc)) ->
        inner = []).
Proof.
  induction l as [|p l IH]; intros acc Hd Hin; simpl.
  - now split.
  - apply IH.
    + now apply distinct_keys_set.
    + intros x Hx. apply dict_values_set_subset in Hx.
      destruct Hx as [Hx | ->]; [now apply Hin | reflexivity].
Qed.

(** X13. In every result of the resolver the [metrics] mapping lists no
    prefix name twice, and each per-prefix mapping has text keys only and
    lists none of them twice. *)
Theorem output_mappings_well_formed {builtins : PyBuiltins} (cursor : database)
    (res : resolved) :
  build_resolved_metrics cursor = Ok res ->
  distinct_keys (metrics res) /\
  forall pname inner,
    dict_get (metrics res) pname = Some inner ->
    distinct_keys inner /\ text_keys inner.
Proof.
  intros Hb.
  destruct (build_resolved_metrics_ok_inv _ _ Hb)
    as (nrows & names & prows & vrows & Hl & _).
  rewrite (build_resolved_metrics_loaded _ _ _ _ _ Hl) in Hb.
  destruct (for_each _ vrows _) as [m|] eqn:Hloop; cbn [bind] in Hb; [|discriminate].
  injection Hb as <-. cbn [metrics].
  destruct (init_metrics_shape (map (fun r => item r 1) prows) []) as [Hd0 He0].
  { constructor. }
  { intros inner []. }
  destruct (values_loop_shape _ _ _ _ _ Hloop Hd0) as [Hd Hin].
  { intros inner Hi. rewrite (He0 inner Hi). split; constructor. }
  split; [exact Hd|]. intros pname inner Hg.
  apply Hin. now apply (dict_get_in_values _ pname).
Qed.

(** A run of X13. *)
Lemma output_mappings_well_formed_witness :
  distinct_keys [(PyStr "roi", [(PyStr "thread.time", PyInt 4)])] /\
  forall pname inner,
    dict_get [(PyStr "roi", [(PyStr "thread.time", PyInt 4)])] pname = Some inner ->
    distinct_keys inner /\ text_keys inner.
Proof.
  exact (output_mappings_well_formed (builtins := ascii_builtins)
           (stats_db [[PyInt 1; PyStr "thread"; PyStr "time"]]
                     [[PyInt 10; PyStr "roi"]]
                     [[PyInt 10; PyInt 1; PyInt 0; PyInt 4]])
           {| prefixes := [PyStr "roi"];
              metrics := [(PyStr "roi", [(PyStr "thread.time", PyInt 4)])] |}
           eq_refl).
Defined.

(** *** Prefixes without a name *)

Lemma key_eq_none (p : pyval) : key_eq p PyNone = true -> p = PyNone.
Proof.
  intros H. apply key_eq_iff in H.
  destruct p as [|z|f|s|b]; try reflexivity; simpl in H; exfalso.
  - destruct z as [|q|q]; [discriminate | |];
      destruct (odd_part q 0); discriminate.
  - destruct (Prim2SF f) as [| | |sg mt ex]; try discriminate.
    destruct (odd_part mt ex); discriminate.
  - discriminate.
  - discriminate.
Qed.

(** X14. A prefix row whose name is NULL gets the entry [None] in
    [metrics], and that entry stays empty whatever the values table
    holds: rows whose prefix identifier looks up [None] are skipped like
    rows of an unknown prefix. *)
Theorem null_prefix_entry_empty {builtins : PyBuiltins} (cursor : database)
    (nrows : list (list pyval)) (names : dict (string * string))
    (prows vrows : list (list pyval)) (prow : list pyval) :
  loaded cursor nrows names prows vrows ->
  In prow prows ->
  item prow 1 = PyNone ->
  exists res,
    build_resolved_metrics cursor = Ok res /\
    dict_get (metrics res) PyNone = Some [] /\
    forall m row,
      dict_get (prefix_dict prows) (convert_value (item row 0)) = Some PyNone ->
      values_loop_body names (prefix_dict prows) m row = Ok m.
Proof.
  intros Hl Hin Hnull.
  destruct (build_resolved_metrics_spec _ _ _ _ _ Hl)
    as (res & Hb & Hpre & _ & _ & Hun).
  exists res. split; [exact Hb|]. split.
  - rewrite Hun.
    + assert (E : existsb (fun q => key_eq q PyNone) (prefixes res) = true).
      { rewrite Hpre. apply existsb_exists. exists PyNone. split; [|reflexivity].
        apply in_map_iff. now exists prow. }
      now rewrite E.
    + intros row p _ Hp. destruct (key_eq p PyNone) eqn:E; [|reflexivity].
      apply key_eq_none in E. subst p. unfold row_prefix in Hp.
      destruct (dict_get (prefix_dict prows) (convert_value (item row 0))) as [q|];
        [|discriminate].
      destruct (is_none q) eqn:Hq; [discriminate|]. now injection Hp as ->.
  - intros m row Hp. rewrite values_loop_body_spec. unfold row_prefix.
    now rewrite Hp.
Qed.

(** A run of X14: prefix 10 has no name; its value row leaves no trace. *)
Lemma null_prefix_entry_empty_witness :
  exists res,
    build_resolved_metrics (builtins := ascii_builtins)
      (stats_db [] [[PyInt 10; PyNone]] [[PyInt 10; PyInt 7; PyInt 0; PyInt 5]])
    = Ok res /\
    dict_get (metrics res) PyNone = Some [].
Proof.
  destruct (null_prefix_entry_empty (builtins := ascii_builtins)
              (stats_db [] [[PyInt 10; PyNone]] [[PyInt 10; PyInt 7; PyInt 0; PyInt 5]])
              [] [] [[PyInt 10; PyNone]] [[PyInt 10; PyInt 7; PyInt 0; PyInt 5]]
              [PyInt 10; PyNone])
    as (res & Hb & Hg & _).
  - repeat split; reflexivity.
  - now left.
  - reflexivity.
  - now exists res.
Defined.
